(** * The pipeline driver [run.py]: a shallow embedding and its properties

    [run.py] parses a command line, checks the two directories, asks the
    dataset reader for the sessions and, for each session, builds one
    configuration and seven pipeline stages and runs the stages in a fixed
    order.  Everything that does real work (the dataset reader, the
    configuration class, the stage classes, the [os] module) is a
    collaborator of the driver; it appears here as an interface, and the
    driver is a program in a small state-and-exception monad that records
    every call it makes to a collaborator. *)

From Stdlib Require Import ZArith Lia Ascii String.
From stdpp Require Import base option list strings gmap.



(** ** Data *)

(** The classes imported from [pipelines] (run.py, lines 7-9). *)
Inductive StageClass :=
| PreFreeSurfer
| FreeSurfer
| PostFreeSurfer
| FMRIVolume
| FMRISurface
| DCANSignalPreprocessing
| ExecutiveSummary.

#[global] Instance StageClass_eq_dec : EqDecision StageClass.
Proof. solve_decision. Defined.

(** Modelled from the spec: the module [pipelines] is not part of the source;
    [x.__class__.__name__] of an instance of one of its seven classes is the
    name under which run.py imports the class, which is also the list of
    options in the help text of [--stage] (run.py, lines 71-73). *)
Definition class_name (k : StageClass) : string :=
  match k with
  | PreFreeSurfer => "PreFreeSurfer"
  | FreeSurfer => "FreeSurfer"
  | PostFreeSurfer => "PostFreeSurfer"
  | FMRIVolume => "FMRIVolume"
  | FMRISurface => "FMRISurface"
  | DCANSignalPreprocessing => "DCANSignalPreprocessing"
  | ExecutiveSummary => "ExecutiveSummary"
  end.

(** Modelled from the spec: a session record as the dataset reader yields it,
    a dict with a subject id under ['subject'], a session id under
    ['session'], and whatever else the reader stores in it. *)
Record session_record := {
  subject : string;
  session : string;
  others : gmap string string
}.

(** Exceptions. [AssertionError] is what an [assert] of the driver raises;
    the other constructors are raised by collaborators. *)
Inductive exn :=
| AssertionError (msg : string)
| ValueError (msg : string)
| OSError (msg : string)
| Exception (msg : string).

Inductive outcome (A : Type) :=
| Return (a : A)
| Raise (e : exn).
Arguments Return {A} a.
Arguments Raise {A} e.

(** What iterating [read_bids_dataset(...)] does: it yields a session, stops,
    or raises.  A session is handed over only when the loop asks for
    the next one. *)
Inductive generator :=
| GStop
| GRaise (e : exn)
| GYield (s : session_record) (rest : generator).

Fixpoint yielded (g : generator) : list session_record :=
  match g with
  | GYield s rest => s :: yielded rest
  | _ => []
  end.

(** How the enumeration ends: by stopping, or with an exception. *)
Fixpoint ending (g : generator) : option exn :=
  match g with
  | GStop => None
  | GRaise e => Some e
  | GYield _ rest => ending rest
  end.

(** ** [os.path.join] (posixpath)

    [join(a, *p)]: a component that starts with the separator replaces what
    was joined so far; otherwise it is appended, after a separator unless the
    path so far is empty or already ends with one. *)
Definition startswith_sep (s : string) : bool :=
  match s with
  | String "/"%char _ => true
  | _ => false
  end.

Fixpoint endswith_sep (s : string) : bool :=
  match s with
  | "" => false
  | String c "" => bool_decide (c = "/"%char)
  | String _ rest => endswith_sep rest
  end.

Definition join_step (path b : string) : string :=
  if startswith_sep b then b
  else if bool_decide (path = "") || endswith_sep path then path +:+ b
  else path +:+ "/" +:+ b.

Definition os_path_join (a : string) (p : list string) : string :=
  foldl join_step a p.

(** A path made ready for a further component: empty, or ending with a
    separator. *)
Definition with_sep (path : string) : string :=
  if bool_decide (path = "") || endswith_sep path then path else path +:+ "/".

(** The string holds a separator. *)
Fixpoint has_sep (s : string) : bool :=
  match s with
  | "" => false
  | String c rest => bool_decide (c = "/"%char) || has_sep rest
  end.

(** ['sub-%s' % x] and the like, for a string [x]. *)
Definition percent_s (prefix x : string) : string := prefix +:+ x.

(** run.py, lines 103-107. *)
Definition session_out_dir (output_dir : string) (s : session_record) : string :=
  os_path_join output_dir
    [percent_s "sub-" (subject s); percent_s "ses-" (session s)].

(** ** The command-line parser (run.py, lines 24-75)

    An [argparse] parser is modelled by the table of arguments declared on
    it.  [add_argument] derives the destination attribute as argparse does:
    a positional is stored under its own name, an option under [dest] when it
    is given and otherwise under its first long flag, leading dashes removed
    and inner dashes turned into underscores. *)
Module Argparse.














End Argparse.




(** ** Collaborators

    The driver calls into [os], [helpers] and [pipelines].  A collaborator
    acts on a world (the file system, the dataset, whatever the pipelines
    keep) and returns or raises.  [World], the configuration objects [Conf],
    the stage objects [Obj] and the value [Ncpus] handed to [run] are left
    open: the driver never looks inside them. *)
Class Collaborators (World Conf Obj Ncpus : Type) := {
  os_path_isdir : string -> World -> bool;
  os_makedirs : string -> World -> outcome unit * World;
  read_bids_dataset : string -> option (list string) -> bool -> World -> generator;
  HCPConfiguration : session_record -> string -> World -> outcome Conf * World;
  stage_init : StageClass -> Conf -> World -> outcome Obj * World;
  stage_str : StageClass -> Obj -> World -> outcome string * World;
  stage_run : StageClass -> Obj -> Ncpus -> World -> outcome unit * World
}.

Section Driver.

Context {World Conf Obj Ncpus : Type}.
Context `{!Collaborators World Conf Obj Ncpus}.

(** A stage object: an instance of one of the seven classes. *)
Record stage := {
  stage_class : StageClass;
  stage_obj : Obj
}.

(** What the driver does to the outside, in the order it does it.  An event is
    recorded when the call returns; a call of [run] is recorded when it is
    made and again when it returns. *)
Inductive event :=
| Makedirs (path : string)
| ReadDataset (bids_dir : string) (subject_list : option (list string)) (collect : bool)
| Yield (s : session_record)
| NewConfiguration (s : session_record) (out_dir : string) (c : Conf)
| NewStage (k : StageClass) (c : Conf) (o : Obj)
| Print (line : string)
| RunCall (stg : stage) (n : Ncpus)
| RunReturn (stg : stage).

Record state := {
  world : World;
  trace : list event
}.

(** The monad of the driver: state passing, with exceptions. *)
Definition M (A : Type) : Type := state -> outcome A * state.

Definition ret {A} (a : A) : M A := fun st => (Return a, st).

Definition raise {A} (e : exn) : M A := fun st => (Raise e, st).

Definition bind {A B} (m : M A) (k : A -> M B) : M B :=
  fun st =>
    match m st with
    | (Return a, st') => k a st'
    | (Raise e, st') => (Raise e, st')
    end.

Definition log (e : event) : M unit :=
  fun st => (Return tt, {| world := world st; trace := trace st ++ [e] |}).

(** A call to a collaborator. *)
Definition call {A} (f : World -> outcome A * World) : M A :=
  fun st =>
    let (r, w) := f (world st) in
    (r, {| world := w; trace := trace st |}).

(** A query that neither changes the world nor raises. *)
Definition ask {A} (f : World -> A) : M A :=
  fun st => (Return (f (world st)), st).

End Driver.

Declare Scope driver_scope.
Delimit Scope driver_scope with driver.
Notation "x <- m ;; k" := (bind m (fun x => k))
  (at level 100, m at next level, right associativity) : driver_scope.
Notation "m ;; k" := (bind m (fun _ => k))
  (at level 100, right associativity) : driver_scope.

(** ** The driver (run.py, lines 78-130) *)
Section Interface.

Context {World Conf Obj Ncpus : Type}.
Context `{!Collaborators World Conf Obj Ncpus}.

Local Open Scope driver_scope.
Local Abbreviation M := (@M World Conf Obj Ncpus).
Local Abbreviation stage := (@stage Obj).

(** [assert cond, msg] *)
Definition py_assert (cond : bool) (msg : string) : M unit :=
  if cond then ret tt else raise (AssertionError msg).

(** [for x in l: body(x)] over a list *)
Fixpoint for_each {A} (l : list A) (body : A -> M unit) : M unit :=
  match l with
  | [] => ret tt
  | x :: rest => body x ;; for_each rest body
  end.

(** [for session in session_generator: body(session)] *)
Fixpoint for_sessions (g : generator) (body : session_record -> M unit) : M unit :=
  match g with
  | GStop => ret tt
  | GRaise e => raise e
  | GYield s rest => log (Yield s) ;; body s ;; for_sessions rest body
  end.

(** [K(session_conf)] for a stage class [K] *)
Definition construct (k : StageClass) (session_conf : Conf) : M stage :=
  o <- call (stage_init k session_conf) ;;
  log (NewStage k session_conf o) ;;
  ret {| stage_class := k; stage_obj := o |}.

(** [x.__class__.__name__] *)
Definition name_of (x : stage) : string := class_name (stage_class x).

(** The truth value of [start_stage]: [None] and the empty string are false. *)
Definition truthy (start_stage : option string) : bool :=
  match start_stage with
  | Some (String _ _) => true
  | _ => false
  end.

(** [names.index(x)]: the first position of [x], if any. *)
Definition list_index (x : string) (names : list string) : option nat :=
  fst <$> list_find (fun y => y = x) names.

Definition double_quote : string := String "034"%char "".

(** The message of the assertion of lines 121-123. *)
Definition unknown_stage (start_stage : string) : string :=
  double_quote +:+ start_stage +:+ double_quote +:+
  " is unknown, check class name and case for given stage".

(** run.py, lines 119-124: where to resume. *)
Definition resume_from (start_stage : option string) (order : list stage)
  : M (list stage) :=
  if truthy start_stage then
    let start := default "" start_stage in
    let names := name_of <$> order in
    py_assert (bool_decide (start ∈ names)) (unknown_stage start) ;;
    match list_index start names with
    | Some i => ret (drop i order)
    | None => raise (ValueError (start +:+ " is not in list"))
    end
  else ret order.

(** run.py, lines 127-130: the body of the loop over the stages. *)
Definition run_stage (ncpus : Ncpus) (stg : stage) : M unit :=
  log (Print ("running " +:+ name_of stg)) ;;
  text <- call (stage_str (stage_class stg) (stage_obj stg)) ;;
  log (Print text) ;;
  log (RunCall stg ncpus) ;;
  call (stage_run (stage_class stg) (stage_obj stg) ncpus) ;;
  log (RunReturn stg).

(** run.py, lines 102-130: the body of the loop over the sessions. *)
Definition run_session (output_dir : string) (ncpus : Ncpus)
    (start_stage : option string) (session : session_record) : M unit :=
  let out_dir := session_out_dir output_dir session in
  session_conf <- call (HCPConfiguration session out_dir) ;;
  log (NewConfiguration session out_dir session_conf) ;;
  pre <- construct PreFreeSurfer session_conf ;;
  free <- construct FreeSurfer session_conf ;;
  post <- construct PostFreeSurfer session_conf ;;
  vol <- construct FMRIVolume session_conf ;;
  surf <- construct FMRISurface session_conf ;;
  fnlpp <- construct DCANSignalPreprocessing session_conf ;;
  execsum <- construct ExecutiveSummary session_conf ;;
  let order := [pre; free; post; vol; surf; fnlpp; execsum] in
  order <- resume_from start_stage order ;;
  for_each order (run_stage ncpus).

(** run.py, lines 78-130. *)
Definition interface (bids_dir output_dir : string)
    (subject_list : option (list string)) (collect : bool) (ncpus : Ncpus)
    (start_stage : option string) : M unit :=
  is_dir <- ask (os_path_isdir bids_dir) ;;
  py_assert is_dir (bids_dir +:+ " is not a directory!") ;;
  out_is_dir <- ask (os_path_isdir output_dir) ;;
  (if negb out_is_dir
   then call (os_makedirs output_dir) ;; log (Makedirs output_dir)
   else ret tt) ;;
  session_generator <- ask (read_bids_dataset bids_dir subject_list collect) ;;
  log (ReadDataset bids_dir subject_list collect) ;;
  for_sessions session_generator (run_session output_dir ncpus start_stage).

End Interface.

(** ** The calls one expects to see

    The fixed order of the stages (run.py, line 118), and the events of a
    run that goes through: what is recorded for one stage, for one session,
    and before the first session. *)
Definition pipeline_order : list StageClass :=
  [PreFreeSurfer; FreeSurfer; PostFreeSurfer; FMRIVolume; FMRISurface;
   DCANSignalPreprocessing; ExecutiveSummary].


Section Expected.

Context {World Conf Obj Ncpus : Type}.
Context `{!Collaborators World Conf Obj Ncpus}.

Local Abbreviation stage := (@stage Obj).
Local Abbreviation event := (@event Conf Obj Ncpus).

(** The stages that are run when [resume_from] returns. *)
Definition resumed (start_stage : option string) (order : list stage) : list stage :=
  if truthy start_stage then
    match list_index (default "" start_stage) (name_of <$> order) with
    | Some i => drop i order
    | None => []
    end
  else order.

(** One turn of the loop over the stages; [text] is what [str(stage)] gave. *)
Definition stage_events (ncpus : Ncpus) (stg : stage) (text : string) : list event :=
  [Print ("running " +:+ name_of stg); Print text; RunCall stg ncpus; RunReturn stg].

(** What the collaborators returned while one session was processed: its
    configuration, the seven stage objects, and the text of each stage that
    was run. *)
Record session_result := {
  conf_of : Conf;
  objs_of : list Obj;
  texts_of : list string
}.

Definition stages_of (r : session_result) : list stage :=
  zip_with (fun k o => {| stage_class := k; stage_obj := o |}) pipeline_order (objs_of r).

Definition complete (start_stage : option string) (r : session_result) : Prop :=
  length (objs_of r) = length pipeline_order /\
  length (texts_of r) = length (resumed start_stage (stages_of r)).

(** One turn of the loop over the sessions, after the session was yielded. *)
Definition session_events (output_dir : string) (ncpus : Ncpus)
    (start_stage : option string) (s : session_record) (r : session_result)
  : list event :=
  NewConfiguration s (session_out_dir output_dir s) (conf_of r) ::
  zip_with (fun k o => NewStage k (conf_of r) o) pipeline_order (objs_of r) ++
  concat (zip_with (stage_events ncpus)
            (resumed start_stage (stages_of r)) (texts_of r)).

(** Before the loop: the output directory is made if it is missing, and the
    dataset reader is called. *)
Definition setup_events (bids_dir output_dir : string)
    (subject_list : option (list string)) (collect : bool) (w : World)
  : list event :=
  (if os_path_isdir output_dir w then [] else [Makedirs output_dir]) ++
  [ReadDataset bids_dir subject_list collect].

(** The world in which the dataset is read. *)
Definition world_after_setup (output_dir : string) (w : World) : World :=
  if os_path_isdir output_dir w then w else (os_makedirs output_dir w).2.

(** The sessions the enumeration yields. *)
Definition sessions_of (bids_dir output_dir : string)
    (subject_list : option (list string)) (collect : bool) (w : World)
  : list session_record :=
  yielded (read_bids_dataset bids_dir subject_list collect
             (world_after_setup output_dir w)).

(** The events of a whole run that goes through: the setup, then one block
    per session, in the order of the enumeration. *)
Definition session_block (output_dir : string) (ncpus : Ncpus)
    (start_stage : option string) (s : session_record) (r : session_result)
  : list event :=
  Yield s :: session_events output_dir ncpus start_stage s r.

Definition loop_events (output_dir : string) (ncpus : Ncpus)
    (start_stage : option string) (sessions : list session_record)
    (rs : list session_result) : list event :=
  concat (zip_with (session_block output_dir ncpus start_stage) sessions rs).

(** *** Shapes of traces *)


Definition is_run (e : event) : bool :=
  match e with
  | RunCall _ _ | RunReturn _ => true
  | _ => false
  end.

Definition is_yield (e : event) : bool :=
  match e with
  | Yield _ => true
  | _ => false
  end.

(** Every call of [run] is directly followed by its return, and no return
    stands without its call: no call of [run] is pending. *)
Inductive closed : list event -> Prop :=
| closed_nil : closed []
| closed_other e evs : is_run e = false -> closed evs -> closed (e :: evs)
| closed_run stg n evs : closed evs -> closed (RunCall stg n :: RunReturn stg :: evs).

(** At most one call of [run] is pending, and it is the last event. *)
Definition sequential (evs : list event) : Prop :=
  closed evs \/ exists before stg n, evs = before ++ [RunCall stg n] /\ closed before.

(** The classes of the stages whose [run] was called, in the order of the
    calls. *)
Definition stages_run (evs : list event) : list StageClass :=
  omap (fun e => match e with
                 | RunCall stg _ => Some (stage_class stg)
                 | _ => None
                 end) evs.

(** A configuration is built with the output path computed from
    [output_dir] and its session. *)
Definition configured_under (output_dir : string) (e : event) : Prop :=
  match e with
  | NewConfiguration s out_dir _ => out_dir = session_out_dir output_dir s
  | _ => True
  end.

(** The events of lines 94-98. *)
Definition is_makedirs (e : event) : bool :=
  match e with
  | Makedirs _ => true
  | _ => false
  end.

Definition is_read (e : event) : bool :=
  match e with
  | ReadDataset _ _ _ => true
  | _ => false
  end.

(** The construction of a configuration or of a stage object. *)
Definition is_construction (e : event) : bool :=
  match e with
  | NewConfiguration _ _ _ | NewStage _ _ _ => true
  | _ => false
  end.

(** The events are constructions followed by events that are not. *)
Definition built_then_run (evs : list event) : Prop :=
  exists cons runs, evs = cons ++ runs /\
    Forall (fun e => is_construction e = true) cons /\
    Forall (fun e => is_construction e = false) runs.

(** The configurations built, each with its session and output path, and the
    stage objects built, each with its class and the configuration it was
    built from. *)
Definition configured (evs : list event) : list (session_record * string * Conf) :=
  omap (fun e => match e with
                 | NewConfiguration s out_dir c => Some (s, out_dir, c)
                 | _ => None
                 end) evs.

Definition built (evs : list event) : list (StageClass * Conf) :=
  omap (fun e => match e with
                 | NewStage k c _ => Some (k, c)
                 | _ => None
                 end) evs.

(** The last of the seven stage objects has been built. *)
Definition is_last_construction (e : event) : Prop :=
  match e with
  | NewStage ExecutiveSummary _ _ => True
  | _ => False
  end.

(** What is left of the loop when it is cut short after [done] sessions:
    nothing, or the next session, yielded and begun, with at most its last
    call of [run] pending. *)
Definition interrupted (sessions : list session_record) (done : nat)
    (partial : list event) : Prop :=
  partial = [] \/
  exists s body, sessions !! done = Some s /\ partial = Yield s :: body /\
    Forall (fun e => is_yield e = false) body /\ sequential body.

(** *** What a run may do

    [emits m Q]: whatever [m] does, it only adds events to the trace, and the
    outcome and the events added satisfy [Q]. *)
Definition emits {A} (m : @M World Conf Obj Ncpus A) (Q : outcome A -> list event -> Prop) : Prop :=
  forall st r st1, m st = (r, st1) ->
    exists evs, trace st1 = trace st ++ evs /\ Q r evs.

(** [always P m]: every event [m] adds satisfies [P]. *)
Definition always {A} (P : event -> Prop) (m : @M World Conf Obj Ncpus A) : Prop :=
  emits m (fun _ evs => Forall P evs).


(** [orderly m]: when [m] returns, no call of [run] it made is pending; when
    it raises, at most the call that raised is. *)
Definition orderly {A} (m : @M World Conf Obj Ncpus A) : Prop :=
  emits m (fun r evs =>
    match r with
    | Return _ => closed evs
    | Raise _ => sequential evs
    end).


(** What a run with the unknown start stage [start] may do: it calls no
    [run], and once it has built the seventh stage object of a session it
    fails with the assertion of line 121. *)
Definition rejecting (start : string) {A} (r : outcome A) (evs : list event) : Prop :=
  Forall (fun e => is_run e = false) evs /\
  (Exists is_last_construction evs ->
   r = Raise (AssertionError (unknown_stage start))).

Definition quiet (e : event) : Prop :=
  is_run e = false /\ ~ is_last_construction e.


End Expected.

(** ** A small world to run the driver in

    Directories and regular files are paths in two lists; [os.makedirs]
    refuses a path that exists already; the dataset is a list of sessions
    that the reader filters by subject; a configuration remembers its session
    and output path, a stage object its configuration; [run] raises for the
    classes listed as broken and otherwise notes that it ran. *)
Module Lab.

Record lab := {
  directories : list string;
  regular_files : list string;
  dataset : list session_record;
  broken : list StageClass;
  ran : list (StageClass * Z)
}.

Definition conf : Type := session_record * string.

Definition isdir (p : string) (w : lab) : bool :=
  bool_decide (p ∈ directories w).

Definition makedirs (p : string) (w : lab) : outcome unit * lab :=
  if bool_decide (p ∈ directories w) || bool_decide (p ∈ regular_files w)
  then (Raise (OSError ("[Errno 17] File exists: " +:+ p)), w)
  else (Return tt,
        {| directories := p :: directories w; regular_files := regular_files w;
           dataset := dataset w; broken := broken w; ran := ran w |}).

Fixpoint generate (l : list session_record) : generator :=
  match l with
  | [] => GStop
  | s :: rest => GYield s (generate rest)
  end.

Definition read (bids_dir : string) (subject_list : option (list string))
    (collect : bool) (w : lab) : generator :=
  generate
    (match subject_list with
     | Some ids => filter (fun s => subject s ∈ ids) (dataset w)
     | None => dataset w
     end).

Definition configure (s : session_record) (out_dir : string) (w : lab)
  : outcome conf * lab := (Return (s, out_dir), w).

Definition init (k : StageClass) (c : conf) (w : lab) : outcome conf * lab :=
  (Return c, w).

Definition str (k : StageClass) (o : conf) (w : lab) : outcome string * lab :=
  (Return (class_name k +:+ " of " +:+ o.2), w).

Definition run (k : StageClass) (o : conf) (n : Z) (w : lab) : outcome unit * lab :=
  if bool_decide (k ∈ broken w)
  then (Raise (Exception (class_name k +:+ " failed")), w)
  else (Return tt,
        {| directories := directories w; regular_files := regular_files w;
           dataset := dataset w; broken := broken w; ran := ran w ++ [(k, n)] |}).

#[global] Instance collaborators : Collaborators lab conf conf Z := {|
  os_path_isdir := isdir;
  os_makedirs := makedirs;
  read_bids_dataset := read;
  HCPConfiguration := configure;
  stage_init := init;
  stage_str := str;
  stage_run := run
|}.

Definition alice : session_record :=
  {| subject := "01"; session := "baseline"; others := ∅ |}.

Definition bob : session_record :=
  {| subject := "02"; session := "followup"; others := {["age" := "9"]} |}.

(** A dataset under [/data] with two sessions; [/out] does not exist yet. *)
Definition fresh : lab :=
  {| directories := ["/data"]; regular_files := ["/notes.txt"];
     dataset := [alice; bob]; broken := []; ran := [] |}.

Definition empty_dataset : lab :=
  {| directories := ["/data"]; regular_files := [];
     dataset := []; broken := []; ran := [] |}.

Definition start (w : lab) : @state lab conf conf Z :=
  {| world := w; trace := [] |}.

(** The same dataset, but the volume stage is broken. *)
Definition faulty : lab :=
  {| directories := ["/data"; "/out"]; regular_files := [];
     dataset := [alice; bob]; broken := [FMRIVolume]; ran := [] |}.

(** A session with the ids of [alice] and other content. *)
Definition alice_again : session_record :=
  {| subject := "01"; session := "baseline";
     others := {["age" := "10"; "site" := "north"]} |}.

Definition later : lab :=
  {| directories := ["/elsewhere"; "/out"]; regular_files := [];
     dataset := [alice_again]; broken := []; ran := [] |}.

(** Some runs of the interface. *)
Definition run_all :=
  interface "/data" "/out" None false 4%Z None (start fresh).

Definition run_from_surface :=
  interface "/data" "/out" (Some ["02"]) false 4%Z (Some "FMRISurface") (start fresh).

Definition run_unknown_stage :=
  interface "/data" "/out" None false 4%Z (Some "fmri") (start fresh).

Definition run_empty_stage :=
  interface "/data" "/out" None false 4%Z (Some "") (start fresh).

Definition run_no_sessions :=
  interface "/data" "/out" None false 4%Z (Some "fmri") (start empty_dataset).

Definition run_no_dataset :=
  interface "/nowhere" "/out" None false 4%Z None (start fresh).

Definition run_onto_file :=
  interface "/data" "/notes.txt" None false 4%Z None (start fresh).


Definition run_later :=
  interface "/elsewhere" "/out" None true 1%Z (Some "ExecutiveSummary") (start later).

End Lab.


(** ** A world without a dataset

    Every directory exists, and the reader raises as soon as it is asked for
    a session. *)
Module Outage.

Definition no_subjects : exn := Exception "no subjects found".

#[global] Instance collaborators : Collaborators unit unit unit Z := {|
  os_path_isdir := fun _ _ => true;
  os_makedirs := fun _ w => (Return tt, w);
  read_bids_dataset := fun _ _ _ _ => GRaise no_subjects;
  HCPConfiguration := fun _ _ w => (Return tt, w);
  stage_init := fun _ _ w => (Return tt, w);
  stage_str := fun k _ w => (Return (class_name k), w);
  stage_run := fun _ _ _ w => (Return tt, w)
|}.

Definition start : @state unit unit unit Z := {| world := tt; trace := [] |}.

End Outage.

(** ** Single steps of the driver in the small world *)
Module Bench.

Definition two_stages : list (@stage Lab.conf) :=
  [ {| stage_class := PreFreeSurfer; stage_obj := (Lab.alice, "/out") |};
    {| stage_class := FreeSurfer; stage_obj := (Lab.alice, "/out") |} ].

(** A start stage in the wrong case. *)
Definition resume_lowercase :=
  resume_from (Some "freesurfer") two_stages (Lab.start Lab.fresh).

(** One session, with the volume stage broken. *)
Definition session_faulty :=
  run_session "/out" 4%Z None Lab.alice (Lab.start Lab.faulty).

End Bench.

(** ** Properties of the driver *)
Section Properties.

Context {World Conf Obj Ncpus : Type}.
Context `{!Collaborators World Conf Obj Ncpus}.

Local Open Scope driver_scope.
Local Abbreviation M := (@M World Conf Obj Ncpus).
Local Abbreviation stage := (@stage Obj).
Local Abbreviation event := (@event Conf Obj Ncpus).
Local Abbreviation state := (@state World Conf Obj Ncpus).
Local Abbreviation stage_events := (@stage_events Conf Obj Ncpus).
Local Abbreviation closed := (@closed Conf Obj Ncpus).
Local Abbreviation sequential := (@sequential Conf Obj Ncpus).
Local Abbreviation session_result := (@session_result Conf Obj).
Local Abbreviation stages_run := (@stages_run Conf Obj Ncpus).
Local Abbreviation emits := (@emits World Conf Obj Ncpus _).
Local Abbreviation always := (@always World Conf Obj Ncpus _).
Local Abbreviation orderly := (@orderly World Conf Obj Ncpus _).
Local Abbreviation quiet := (@quiet Conf Obj Ncpus).

Implicit Types (st : state) (stg : stage) (s : session_record) (g : generator).

(** *** Runs that return *)

Lemma bind_Return {A B} (m : M A) (k : A -> M B) st b st2 :
  bind m k st = (Return b, st2) ->
  exists a st1, m st = (Return a, st1) /\ k a st1 = (Return b, st2).
Proof.
  unfold bind. destruct (m st) as [[a|e] st1]; [eauto | discriminate].
Qed.

Lemma call_Return {A} (f : World -> outcome A * World) st a st1 :
  call f st = (Return a, st1) ->
  f (world st) = (Return a, world st1) /\ trace st1 = trace st.
Proof.
  unfold call. destruct (f (world st)) as [r w] eqn:E.
  intros [= -> <-]. auto.
Qed.

Lemma log_Return (e : event) st u st1 :
  log e st = (Return u, st1) -> world st1 = world st /\ trace st1 = trace st ++ [e].
Proof. intros [= _ <-]. auto. Qed.

Lemma ret_Return {A} (a b : A) st st1 :
  ret a st = (Return b, st1) -> b = a /\ st1 = st.
Proof. intros [= <- <-]. auto. Qed.

Lemma py_assert_Return cond msg st u st1 :
  py_assert cond msg st = (Return u, st1) -> cond = true /\ st1 = st.
Proof. destruct cond; [intros [= <-]; auto | discriminate]. Qed.

Lemma construct_Return k (c : Conf) st stg st1 :
  construct k c st = (Return stg, st1) ->
  stage_class stg = k /\ trace st1 = trace st ++ [NewStage k c (stage_obj stg)].
Proof.
  unfold construct. intros H0.
  apply bind_Return in H0 as (o & sta & Hcall & H0).
  apply bind_Return in H0 as (u & stb & Hlog & H0).
  apply ret_Return in H0 as [-> ->].
  apply call_Return in Hcall as [_ Ha]. apply log_Return in Hlog as [_ Hb].
  simpl. rewrite Hb, Ha. auto.
Qed.

Lemma run_stage_Return (n : Ncpus) stg st u st1 :
  run_stage n stg st = (Return u, st1) ->
  exists text, trace st1 = trace st ++ stage_events n stg text.
Proof.
  unfold run_stage. intros H0.
  apply bind_Return in H0 as (? & sta & Ha & H0).
  apply bind_Return in H0 as (text & stb & Hb & H0).
  apply bind_Return in H0 as (? & stc & Hc & H0).
  apply bind_Return in H0 as (? & std & Hd & H0).
  apply bind_Return in H0 as (? & ste & He & H0).
  apply log_Return in Ha as [_ Ha]. apply call_Return in Hb as [_ Hb].
  apply log_Return in Hc as [_ Hc]. apply log_Return in Hd as [_ Hd].
  apply call_Return in He as [_ He]. apply log_Return in H0 as [_ H0].
  exists text. rewrite H0, He, Hd, Hc, Hb, Ha. unfold stage_events.
  rewrite <- !app_assoc. reflexivity.
Qed.

Lemma for_each_run_Return (n : Ncpus) (l : list stage) st u st1 :
  for_each l (run_stage n) st = (Return u, st1) ->
  exists texts, length texts = length l /\
    trace st1 = trace st ++ concat (zip_with (stage_events n) l texts).
Proof.
  revert st. induction l as [|stg l IH]; intros st H0; simpl in H0.
  - apply ret_Return in H0 as [_ ->]. exists []. simpl. by rewrite app_nil_r.
  - apply bind_Return in H0 as (? & sta & Ha & H0).
    apply run_stage_Return in Ha as [text Ha].
    apply IH in H0 as (texts & Hlen & H0).
    exists (text :: texts). split; [simpl; congruence|].
    rewrite H0, Ha. simpl concat. by rewrite <- app_assoc.
Qed.

Lemma resume_from_Return start_stage (order : list stage) st l st1 :
  resume_from start_stage order st = (Return l, st1) ->
  st1 = st /\ l = resumed start_stage order /\
  (truthy start_stage = true -> default "" start_stage ∈ name_of <$> order).
Proof.
  unfold resume_from, resumed. destruct (truthy start_stage).
  - intros H0. apply bind_Return in H0 as (? & sta & Ha & H0).
    apply py_assert_Return in Ha as [Hin ->]. apply bool_decide_eq_true in Hin.
    destruct (list_index _ _) as [i|]; [|discriminate].
    apply ret_Return in H0 as [-> ->]. auto.
  - intros H0. apply ret_Return in H0 as [-> ->]. split; [done|]. split; [done|]. discriminate.
Qed.

Lemma ask_Return {A} (f : World -> A) st a st1 :
  ask f st = (Return a, st1) -> a = f (world st) /\ st1 = st.
Proof. intros [= <- <-]. auto. Qed.

Lemma run_session_Return output_dir (n : Ncpus) start_stage s st u st1 :
  run_session output_dir n start_stage s st = (Return u, st1) ->
  exists r, complete start_stage r /\
    trace st1 = trace st ++ session_events output_dir n start_stage s r /\
    (truthy start_stage = true ->
     default "" start_stage ∈ class_name <$> pipeline_order).
Proof.
  unfold run_session. intros H0.
  apply bind_Return in H0 as (c & sta & Hc & H0).
  apply bind_Return in H0 as (? & stb & Hlog & H0).
  apply bind_Return in H0 as (pre & st2 & H2 & H0).
  apply bind_Return in H0 as (free & st3 & H3 & H0).
  apply bind_Return in H0 as (post & st4 & H4 & H0).
  apply bind_Return in H0 as (vol & st5 & H5 & H0).
  apply bind_Return in H0 as (surf & st6 & H6 & H0).
  apply bind_Return in H0 as (fnlpp & st7 & H7 & H0).
  apply bind_Return in H0 as (execsum & st8 & H8 & H0).
  apply bind_Return in H0 as (order & st9 & H9 & H0).
  apply call_Return in Hc as [_ Hc]. apply log_Return in Hlog as [_ Hlog].
  apply construct_Return in H2 as [K2 H2]. apply construct_Return in H3 as [K3 H3].
  apply construct_Return in H4 as [K4 H4]. apply construct_Return in H5 as [K5 H5].
  apply construct_Return in H6 as [K6 H6]. apply construct_Return in H7 as [K7 H7].
  apply construct_Return in H8 as [K8 H8].
  apply resume_from_Return in H9 as (-> & -> & Hin).
  apply for_each_run_Return in H0 as (texts & Hlen & H0).
  destruct pre as [k2 o2], free as [k3 o3], post as [k4 o4], vol as [k5 o5],
    surf as [k6 o6], fnlpp as [k7 o7], execsum as [k8 o8].
  simpl in K2, K3, K4, K5, K6, K7, K8. subst.
  exists {| conf_of := c; objs_of := [o2; o3; o4; o5; o6; o7; o8]; texts_of := texts |}.
  split; [split; [reflexivity | exact Hlen]|].
  split; [|exact Hin].
  rewrite H0, H8, H7, H6, H5, H4, H3, H2, Hlog, Hc.
  unfold session_events. simpl. rewrite <- !app_assoc. reflexivity.
Qed.

Lemma for_sessions_Return output_dir (n : Ncpus) start_stage g st u st1 :
  for_sessions g (run_session output_dir n start_stage) st = (Return u, st1) ->
  exists rs, length rs = length (yielded g) /\ Forall (complete start_stage) rs /\
    trace st1 = trace st ++ loop_events output_dir n start_stage (yielded g) rs /\
    (yielded g <> [] -> truthy start_stage = true ->
     default "" start_stage ∈ class_name <$> pipeline_order).
Proof.
  revert st. induction g as [|e|s rest IH]; intros st H0; simpl in H0.
  - apply ret_Return in H0 as [_ ->]. exists []. simpl.
    rewrite app_nil_r. split_and!; done.
  - discriminate.
  - apply bind_Return in H0 as (? & sta & Ha & H0).
    apply bind_Return in H0 as (? & stb & Hb & H0).
    apply log_Return in Ha as [_ Ha].
    apply run_session_Return in Hb as (r & Hr & Hb & Hin).
    apply IH in H0 as (rs & Hlen & Hrs & H0 & _).
    exists (r :: rs). split; [simpl; congruence|]. split; [by constructor|].
    split; [|auto].
    rewrite H0, Hb, Ha. unfold loop_events. cbn [yielded zip_with concat].
    unfold session_block. rewrite <- !app_assoc. reflexivity.
Qed.

Lemma interface_Return bids_dir output_dir subject_list collect (n : Ncpus)
    start_stage st u st1 :
  interface bids_dir output_dir subject_list collect n start_stage st = (Return u, st1) ->
  let sessions := sessions_of bids_dir output_dir subject_list collect (world st) in
  os_path_isdir bids_dir (world st) = true /\
  exists rs, length rs = length sessions /\ Forall (complete start_stage) rs /\
    trace st1 = trace st ++
      setup_events bids_dir output_dir subject_list collect (world st) ++
      loop_events output_dir n start_stage sessions rs /\
    (sessions <> [] -> truthy start_stage = true ->
     default "" start_stage ∈ class_name <$> pipeline_order).
Proof.
  unfold interface, sessions_of, world_after_setup, setup_events. intros H0.
  apply bind_Return in H0 as (b & sta & Ha & H0). apply ask_Return in Ha as [-> ->].
  apply bind_Return in H0 as (? & sta & Ha & H0).
  apply py_assert_Return in Ha as [Hdir ->].
  apply bind_Return in H0 as (b & sta & Ha & H0). apply ask_Return in Ha as [-> ->].
  apply bind_Return in H0 as (? & stb & Hb & H0).
  apply bind_Return in H0 as (g & stc & Hc & H0). apply ask_Return in Hc as [-> ->].
  apply bind_Return in H0 as (? & std & Hd & H0). apply log_Return in Hd as [Hw Hd].
  apply for_sessions_Return in H0 as (rs & Hlen & Hrs & H0 & Hin).
  clear Hw. split; [exact Hdir|].
  destruct (os_path_isdir output_dir (world st)) eqn:Hout; simpl in Hb.
  - apply ret_Return in Hb as [_ ->].
    exists rs. split; [done|]. split; [done|]. split; [|done].
    rewrite H0, Hd. simpl. by rewrite <- app_assoc.
  - apply bind_Return in Hb as (? & ste & He & Hb).
    apply call_Return in He as [He1 He2]. apply log_Return in Hb as [Hw Hb].
    rewrite Hw in *. rewrite He1. simpl.
    exists rs. split; [done|]. split; [done|]. split; [|done].
    rewrite H0, Hd, Hb, He2. simpl.
    rewrite <- !app_assoc. reflexivity.
Qed.

(** *** Any run, returning or raising *)

Lemma emits_weaken {A} (m : M A) (Q Q' : outcome A -> list event -> Prop) :
  emits m Q -> (forall r evs, Q r evs -> Q' r evs) -> emits m Q'.
Proof. intros Hm HQ st r st1 E. destruct (Hm _ _ _ E) as (evs & ? & ?). eauto. Qed.

Lemma emits_ret {A} (a : A) (Q : outcome A -> list event -> Prop) :
  Q (Return a) [] -> emits (ret a) Q.
Proof. intros HQ st r st1 [= <- <-]. exists []. by rewrite app_nil_r. Qed.

Lemma emits_raise {A} e (Q : outcome A -> list event -> Prop) :
  Q (Raise e) [] -> emits (raise e) Q.
Proof. intros HQ st r st1 [= <- <-]. exists []. by rewrite app_nil_r. Qed.

Lemma emits_log (e : event) (Q : outcome unit -> list event -> Prop) :
  Q (Return tt) [e] -> emits (log e) Q.
Proof. intros HQ st r st1 [= <- <-]. exists [e]. auto. Qed.

Lemma emits_call {A} (f : World -> outcome A * World)
    (Q : outcome A -> list event -> Prop) :
  (forall r, Q r []) -> emits (call f) Q.
Proof.
  intros HQ st r st1. unfold call. destruct (f (world st)) as [r' w].
  intros [= <- <-]. exists []. simpl. by rewrite app_nil_r.
Qed.

Lemma emits_ask {A} (f : World -> A) (Q : outcome A -> list event -> Prop) :
  (forall a, Q (Return a) []) -> emits (ask f) Q.
Proof. intros HQ st r st1 [= <- <-]. exists []. by rewrite app_nil_r. Qed.

Lemma emits_bind {A B} (m : M A) (k : A -> M B)
    (Q1 : outcome A -> list event -> Prop)
    (Q2 : A -> outcome B -> list event -> Prop)
    (Q : outcome B -> list event -> Prop) :
  emits m Q1 ->
  (forall a evs1, Q1 (Return a) evs1 -> emits (k a) (Q2 a)) ->
  (forall e evs, Q1 (Raise e) evs -> Q (Raise e) evs) ->
  (forall a evs1 r evs2, Q1 (Return a) evs1 -> Q2 a r evs2 -> Q r (evs1 ++ evs2)) ->
  emits (bind m k) Q.
Proof.
  intros Hm Hk Hraise Hseq st r st2. unfold bind.
  destruct (m st) as [[a|e] st1] eqn:E; destruct (Hm _ _ _ E) as (evs1 & T1 & H1).
  - intros E2. destruct (Hk a _ H1 _ _ _ E2) as (evs2 & T2 & H2).
    exists (evs1 ++ evs2). rewrite T2, T1, app_assoc. eauto.
  - intros [= <- <-]. eauto.
Qed.

Lemma always_bind {A B} P (m : M A) (k : A -> M B) :
  always P m -> (forall a, always P (k a)) -> always P (bind m k).
Proof.
  intros Hm Hk. eapply emits_bind; [exact Hm | intros a _ _; exact (Hk a) | auto |].
  intros. by apply Forall_app.
Qed.

Lemma always_ret {A} P (a : A) : always P (ret a).
Proof. by apply emits_ret. Qed.

Lemma always_raise {A} P e : always P (@raise World Conf Obj Ncpus A e).
Proof. by apply emits_raise. Qed.

Lemma always_log P (e : event) : P e -> always P (log e).
Proof. intros. apply emits_log. by repeat constructor. Qed.

Lemma always_call {A} P (f : World -> outcome A * World) : always P (call f).
Proof. by apply emits_call. Qed.

Lemma always_ask {A} P (f : World -> A) : always P (ask f).
Proof. by apply emits_ask. Qed.

Lemma always_assert P cond msg : always P (py_assert cond msg).
Proof. destruct cond; [apply always_ret | apply always_raise]. Qed.

Lemma always_for_each {A} P (l : list A) (body : A -> M unit) :
  (forall x, always P (body x)) -> always P (for_each l body).
Proof.
  intros Hb. induction l as [|x l IH]; simpl.
  - apply always_ret.
  - apply always_bind; auto.
Qed.

Lemma always_for_sessions P g (body : session_record -> M unit) :
  (forall s, P (Yield s)) -> (forall s, always P (body s)) ->
  always P (for_sessions g body).
Proof.
  intros Hy Hb. induction g as [|e|s rest IH]; simpl.
  - apply always_ret.
  - apply always_raise.
  - apply always_bind; [by apply always_log|]. intros _.
    apply always_bind; auto.
Qed.

Lemma always_construct P k (c : Conf) :
  (forall o, P (NewStage k c o)) -> always P (construct k c).
Proof.
  intros HP. unfold construct. apply always_bind; [apply always_call|].
  intros o. apply always_bind; [by apply always_log|]. intros _. apply always_ret.
Qed.

Lemma always_resume_from P start_stage (order : list stage) :
  always P (resume_from start_stage order).
Proof.
  unfold resume_from. destruct (truthy start_stage); [|apply always_ret].
  apply always_bind; [apply always_assert|]. intros _.
  destruct (list_index _ _); [apply always_ret | apply always_raise].
Qed.




(** *** No call of [run] is left pending *)

Lemma closed_app (evs1 evs2 : list event) :
  closed evs1 -> closed evs2 -> closed (evs1 ++ evs2).
Proof.
  intros H1 H2. induction H1; simpl; [done | by apply closed_other | by apply closed_run].
Qed.

Lemma closed_sequential (evs : list event) : closed evs -> sequential evs.
Proof. by left. Qed.

Lemma sequential_app (evs1 evs2 : list event) :
  closed evs1 -> sequential evs2 -> sequential (evs1 ++ evs2).
Proof.
  intros H1 [H2 | (before & stg & n & -> & H2)].
  - left. by apply closed_app.
  - right. exists (evs1 ++ before), stg, n. rewrite app_assoc.
    split; [done | by apply closed_app].
Qed.





Lemma orderly_bind {A B} (m : M A) (k : A -> M B) :
  orderly m -> (forall a, orderly (k a)) -> orderly (bind m k).
Proof.
  intros Hm Hk. eapply emits_bind; [exact Hm | intros a _ _; exact (Hk a) | auto |].
  intros a evs1 [b|e] evs2 H1 H2; [by apply closed_app | by apply sequential_app].
Qed.

Lemma orderly_ret {A} (a : A) : orderly (ret a).
Proof. apply emits_ret. constructor. Qed.

Lemma orderly_raise {A} e : orderly (@raise World Conf Obj Ncpus A e).
Proof. apply emits_raise. left. constructor. Qed.

Lemma orderly_log (e : event) : is_run e = false -> orderly (log e).
Proof. intros. apply emits_log. apply closed_other; [done | apply closed_nil]. Qed.

Lemma orderly_call {A} (f : World -> outcome A * World) : orderly (call f).
Proof. apply emits_call. intros [a|e]; [|left]; constructor. Qed.

Lemma orderly_ask {A} (f : World -> A) : orderly (ask f).
Proof. apply emits_ask. constructor. Qed.

Lemma orderly_assert cond msg : orderly (py_assert cond msg).
Proof. destruct cond; [apply orderly_ret | apply orderly_raise]. Qed.

Lemma orderly_for_each {A} (l : list A) (body : A -> M unit) :
  (forall x, orderly (body x)) -> orderly (for_each l body).
Proof.
  intros Hb. induction l as [|x l IH]; simpl.
  - apply orderly_ret.
  - apply orderly_bind; auto.
Qed.

Lemma orderly_construct k (c : Conf) : orderly (construct k c).
Proof.
  unfold construct. apply orderly_bind; [apply orderly_call|].
  intros o. apply orderly_bind; [by apply orderly_log|]. intros _. apply orderly_ret.
Qed.

Lemma orderly_resume_from start_stage (order : list stage) :
  orderly (resume_from start_stage order).
Proof.
  unfold resume_from. destruct (truthy start_stage); [|apply orderly_ret].
  apply orderly_bind; [apply orderly_assert|]. intros _.
  destruct (list_index _ _); [apply orderly_ret | apply orderly_raise].
Qed.

(** The call of [run] itself: pending while the stage runs, closed by its
    return. *)
Lemma orderly_run (n : Ncpus) stg :
  orderly (log (RunCall stg n) ;;
           call (stage_run (stage_class stg) (stage_obj stg) n) ;;
           log (RunReturn stg)).
Proof.
  intros st r st1. unfold bind, log, call. simpl.
  destruct (stage_run _ _ _ _) as [[u|e] w]; intros [= <- <-]; simpl.
  - exists [RunCall stg n; RunReturn stg]. rewrite <- app_assoc.
    split; [done | apply closed_run, closed_nil].
  - exists [RunCall stg n]. split; [done|].
    right. exists [], stg, n. split; [done | constructor].
Qed.

Lemma orderly_run_stage (n : Ncpus) stg : orderly (run_stage n stg).
Proof.
  unfold run_stage.
  apply orderly_bind; [by apply orderly_log|]. intros _.
  apply orderly_bind; [apply orderly_call|]. intros text.
  apply orderly_bind; [by apply orderly_log|]. intros _.
  apply orderly_run.
Qed.

Lemma orderly_run_session output_dir (n : Ncpus) start_stage s :
  orderly (run_session output_dir n start_stage s).
Proof.
  unfold run_session.
  repeat first
    [ progress cbv zeta
    | apply orderly_construct
    | apply orderly_resume_from
    | apply orderly_for_each; intros ?; apply orderly_run_stage
    | apply orderly_bind; [|intros ?]
    | by apply orderly_log
    | apply orderly_call ].
Qed.

Lemma no_yield_run_session output_dir (n : Ncpus) start_stage s :
  always (fun e => is_yield e = false) (run_session output_dir n start_stage s).
Proof.
  unfold run_session, run_stage.
  repeat first
    [ progress cbv zeta
    | by apply always_construct
    | apply always_resume_from
    | apply always_for_each; intros ?
    | apply always_bind; [|intros ?]
    | by apply always_log
    | apply always_call ].
Qed.

(** *** The loop over the sessions, however it ends *)

Lemma bind_inv {A B} (m : M A) (k : A -> M B) st r st2 :
  bind m k st = (r, st2) ->
  (exists e, m st = (Raise e, st2) /\ r = Raise e) \/
  (exists a st1, m st = (Return a, st1) /\ k a st1 = (r, st2)).
Proof.
  unfold bind. destruct (m st) as [[a|e] st1].
  - right. eauto.
  - intros [= <- <-]. left. eauto.
Qed.

Lemma run_session_Raise output_dir (n : Ncpus) start_stage s st e st1 :
  run_session output_dir n start_stage s st = (Raise e, st1) ->
  exists body, trace st1 = trace st ++ body /\
    Forall (fun e => is_yield e = false) body /\ sequential body.
Proof.
  intros H0.
  destruct (orderly_run_session _ _ _ _ _ _ _ H0) as (body & T & Hseq).
  destruct (no_yield_run_session _ _ _ _ _ _ _ H0) as (body' & T' & Hny).
  rewrite T in T'. apply app_inv_head in T'. subst body'. eauto.
Qed.

Lemma for_sessions_any output_dir (n : Ncpus) start_stage g st r st1 :
  for_sessions g (run_session output_dir n start_stage) st = (r, st1) ->
  exists rs partial,
    trace st1 = trace st ++
      loop_events output_dir n start_stage (take (length rs) (yielded g)) rs ++
      partial /\
    length rs <= length (yielded g) /\ Forall (complete start_stage) rs /\
    match r with
    | Return _ => length rs = length (yielded g) /\ partial = []
    | Raise _ => interrupted (yielded g) (length rs) partial
    end.
Proof.
  revert st. induction g as [|e|s rest IH]; intros st H0; simpl in H0.
  - injection H0 as <- <-. exists [], []. simpl. rewrite app_nil_r. auto.
  - injection H0 as <- <-. exists [], []. simpl. rewrite app_nil_r.
    split_and!; auto. by left.
  - apply bind_inv in H0 as [(e & Ha & _) | (? & sta & Ha & H0)]; [discriminate|].
    apply log_Return in Ha as [_ Ha].
    apply bind_inv in H0 as [(e & Hb & ->) | (? & stb & Hb & H0)].
    + apply run_session_Raise in Hb as (body & Hb & Hny & Hseq).
      exists [], (Yield s :: body). simpl. rewrite Hb, Ha, <- app_assoc.
      split_and!; auto with lia. right. exists s, body. auto.
    + apply run_session_Return in Hb as (r0 & Hr0 & Hb & _).
      apply IH in H0 as (rs & partial & H0 & Hle & Hrs & Hend).
      exists (r0 :: rs), partial.
      split; [|split; [simpl; lia | split; [by constructor|]]].
      * rewrite H0, Hb, Ha. unfold loop_events. cbn [length yielded take zip_with concat].
        unfold session_block. rewrite <- !app_assoc. reflexivity.
      * destruct r as [u|e]; simpl.
        -- destruct Hend as [-> ->]. auto.
        -- destruct Hend as [-> | (s' & body & Hs' & -> & ? & ?)]; [by left|].
           right. exists s', body. auto.
Qed.

(** *** Which stages are run *)

Lemma class_name_inj k1 k2 : class_name k1 = class_name k2 -> k1 = k2.
Proof. destruct k1, k2; simpl; intros E; first [reflexivity | discriminate E]. Qed.

Lemma truthy_class_name k : truthy (Some (class_name k)) = true.
Proof. by destruct k. Qed.


Lemma resumed_suffix start_stage (order : list stage) :
  resumed start_stage order `suffix_of` order.
Proof.
  unfold resumed. destruct (truthy start_stage); [|done].
  destruct (list_index _ _); [apply suffix_drop | apply suffix_nil].
Qed.









Lemma Forall2_of_Forall {A B} (P : A -> B -> Prop) (l : list A) (k : list B) :
  length k = length l -> Forall (fun b => forall a, P a b) k -> Forall2 P l k.
Proof.
  revert k. induction l as [|a l IH]; intros [|b k] Hlen Hk; try discriminate Hlen.
  - constructor.
  - injection Hlen as Hlen. apply Forall_cons in Hk as [Hb Hk]. constructor; auto.
Qed.



(** *** What [run] and the configuration are given *)


Lemma always_configured_interface bids_dir output_dir subject_list collect
    (n : Ncpus) start_stage :
  always (configured_under output_dir)
    (interface bids_dir output_dir subject_list collect n start_stage).
Proof.
  unfold interface.
  apply always_bind; [apply always_ask|]. intros b.
  apply always_bind; [apply always_assert|]. intros _.
  apply always_bind; [apply always_ask|]. intros b'.
  apply always_bind.
  { destruct (negb b'); [|apply always_ret].
    apply always_bind; [apply always_call|]. intros _. by apply always_log. }
  intros _. apply always_bind; [apply always_ask|]. intros g.
  apply always_bind; [by apply always_log|]. intros _.
  apply always_for_sessions; [done|]. intros s.
  unfold run_session, run_stage.
  repeat first
    [ progress cbv zeta
    | by apply always_construct
    | apply always_resume_from
    | apply always_for_each; intros ?
    | apply always_bind; [|intros ?]
    | by apply always_log
    | apply always_call ].
Qed.

(** C7: the output path a configuration is built with is a function of the
    subject id and the session id of its session and of [output_dir]: take
    two runs of the interface with the same [output_dir], in any two worlds
    and with any other arguments; two configurations built in them for
    sessions with equal subject id and equal session id were given the same
    path, whatever else the two session records hold. *)
Theorem out_dir_depends_on_ids_only
    output_dir
    bids_dir1 subject_list1 collect1 (n1 : Ncpus) start_stage1 st1 r1 st1'
    bids_dir2 subject_list2 collect2 (n2 : Ncpus) start_stage2 st2 r2 st2'
    s1 s2 p1 p2 (c1 c2 : Conf) :
  interface bids_dir1 output_dir subject_list1 collect1 n1 start_stage1 st1 = (r1, st1') ->
  interface bids_dir2 output_dir subject_list2 collect2 n2 start_stage2 st2 = (r2, st2') ->
  NewConfiguration s1 p1 c1 ∈ drop (length (trace st1)) (trace st1') ->
  NewConfiguration s2 p2 c2 ∈ drop (length (trace st2)) (trace st2') ->
  subject s1 = subject s2 -> session s1 = session s2 ->
  p1 = p2.
Proof.
  intros H1 H2 In1 In2 Hsub Hses.
  destruct (always_configured_interface _ _ _ _ _ _ _ _ _ H1) as (evs1 & T1 & A1).
  destruct (always_configured_interface _ _ _ _ _ _ _ _ _ H2) as (evs2 & T2 & A2).
  rewrite T1, drop_app_length in In1. rewrite T2, drop_app_length in In2.
  rewrite Forall_forall in A1, A2.
  rewrite (A1 _ In1), (A2 _ In2). unfold session_out_dir. by rewrite Hsub, Hses.
Qed.

Lemma string_app_assoc (s1 s2 s3 : string) :
  (s1 +:+ s2) +:+ s3 = s1 +:+ s2 +:+ s3.
Proof.
  induction s1 as [|c s1 IH]; [reflexivity|].
  change (String c ((s1 +:+ s2) +:+ s3) = String c (s1 +:+ s2 +:+ s3)).
  by f_equal.
Qed.

Lemma join_step_relative (path b : string) :
  startswith_sep b = false -> join_step path b = with_sep path +:+ b.
Proof.
  unfold join_step, with_sep. intros ->.
  destruct (_ || _); [done | by rewrite string_app_assoc].
Qed.

(** C8: every configuration the interface builds, for a session with subject
    id [S] and session id [E], is given the path
    [join(join(output_dir, 'sub-' + S), 'ses-' + E)]: neither component can
    start with a separator, so nothing of [output_dir] is dropped; the
    components are appended, each after a separator unless what precedes it
    is empty or ends with one. *)
Theorem out_dir_is_output_dir_sub_ses
    bids_dir output_dir subject_list collect (n : Ncpus) start_stage st r st1
    s p (c : Conf) :
  interface bids_dir output_dir subject_list collect n start_stage st = (r, st1) ->
  NewConfiguration s p c ∈ drop (length (trace st)) (trace st1) ->
  p = os_path_join (os_path_join output_dir ["sub-" +:+ subject s])
                   ["ses-" +:+ session s] /\
  p = with_sep (with_sep output_dir +:+ "sub-" +:+ subject s)
      +:+ "ses-" +:+ session s.
Proof.
  intros H0 Hin.
  destruct (always_configured_interface _ _ _ _ _ _ _ _ _ H0) as (evs & T & A).
  rewrite T, drop_app_length in Hin. rewrite Forall_forall in A.
  rewrite (A _ Hin). split; [reflexivity|].
  unfold session_out_dir, os_path_join, percent_s. simpl.
  by rewrite !join_step_relative.
Qed.

(** *** The interface, however it ends *)

(** The three ways through lines 93-98: the assertion on [bids_dir] fails;
    [os.makedirs] raises; or the loop over the sessions is entered, after the
    events of the setup. *)
Lemma interface_any bids_dir output_dir subject_list collect (n : Ncpus)
    start_stage st r st1 :
  interface bids_dir output_dir subject_list collect n start_stage st = (r, st1) ->
  (os_path_isdir bids_dir (world st) = false /\
   r = Raise (AssertionError (bids_dir +:+ " is not a directory!")) /\ st1 = st) \/
  (os_path_isdir bids_dir (world st) = true /\
   os_path_isdir output_dir (world st) = false /\
   exists e w, os_makedirs output_dir (world st) = (Raise e, w) /\
     r = Raise e /\ st1 = {| world := w; trace := trace st |}) \/
  (os_path_isdir bids_dir (world st) = true /\
   (os_path_isdir output_dir (world st) = false ->
    exists w, os_makedirs output_dir (world st) = (Return tt, w)) /\
   for_sessions
     (read_bids_dataset bids_dir subject_list collect
        (world_after_setup output_dir (world st)))
     (run_session output_dir n start_stage)
     {| world := world_after_setup output_dir (world st);
        trace := trace st ++
          setup_events bids_dir output_dir subject_list collect (world st) |}
   = (r, st1)).
Proof.
  unfold interface, world_after_setup, setup_events, bind, ask, py_assert, log, call, ret, raise.
  simpl. destruct (os_path_isdir bids_dir (world st)) eqn:Hdir.
  - destruct (os_path_isdir output_dir (world st)) eqn:Hout; simpl.
    + intros H0. right. right. split; [done|]. split; [done|]. exact H0.
    + destruct (os_makedirs output_dir (world st)) as [[[]|e] w] eqn:Hmk; simpl.
      * intros H0. right. right. split; [done|]. split; [eauto|].
        rewrite <- app_assoc in H0. exact H0.
      * intros [= <- <-]. right. left. split; [done|]. split; [done|]. eauto.
  - intros [= <- <-]. left. auto.
Qed.

(** C10: the stage name is only looked at inside the loop over the sessions.
    If [bids_dir] is a directory, the output directory exists or is made, and
    the enumeration ends without yielding a session, the interface returns,
    having done the setup and nothing else, for any value of [start_stage],
    known or not. *)
Theorem no_sessions_no_stage_check
    bids_dir output_dir subject_list collect (n : Ncpus) start_stage st :
  os_path_isdir bids_dir (world st) = true ->
  (os_path_isdir output_dir (world st) = false ->
   exists w, os_makedirs output_dir (world st) = (Return tt, w)) ->
  read_bids_dataset bids_dir subject_list collect
    (world_after_setup output_dir (world st)) = GStop ->
  interface bids_dir output_dir subject_list collect n start_stage st
  = (Return tt,
     {| world := world_after_setup output_dir (world st);
        trace := trace st ++
          setup_events bids_dir output_dir subject_list collect (world st) |}).
Proof.
  intros Hdir Hmk Hgen.
  destruct (interface bids_dir output_dir subject_list collect n start_stage st)
    as [r st1] eqn:H0.
  apply interface_any in H0 as [(Hf & _) | [(_ & Hout & e & w & He & _) | (_ & _ & H0)]].
  - congruence.
  - destruct (Hmk Hout) as [w' Hw']. congruence.
  - rewrite Hgen in H0. simpl in H0. by injection H0 as <- <-.
Qed.

(** C9 (as amended): if [bids_dir] is a directory and [output_dir] is not,
    the interface calls [os.makedirs(output_dir)] and nothing before it.
    When that call returns, the run goes on: it records the call and reads
    the dataset, in the world [os.makedirs] left, in which [output_dir] is a
    directory if [os.makedirs] keeps its promise.  When the call raises, the
    interface raises the same exception and does nothing else.  No assertion
    is made about [output_dir]. *)
Theorem missing_output_dir_is_made
    bids_dir output_dir subject_list collect (n : Ncpus) start_stage st r st1 :
  (forall p w w', os_makedirs p w = (Return tt, w') -> os_path_isdir p w' = true) ->
  os_path_isdir bids_dir (world st) = true ->
  os_path_isdir output_dir (world st) = false ->
  interface bids_dir output_dir subject_list collect n start_stage st = (r, st1) ->
  match os_makedirs output_dir (world st) with
  | (Return _, w) =>
      os_path_isdir output_dir w = true /\
      exists evs, trace st1 = trace st ++
        Makedirs output_dir :: ReadDataset bids_dir subject_list collect :: evs
  | (Raise e, w) =>
      r = Raise e /\ st1 = {| world := w; trace := trace st |}
  end.
Proof.
  intros Hpromise Hdir Hout H0.
  apply interface_any in H0 as [(Hf & _) | [(_ & _ & e & w & He & -> & ->) | (_ & Hmk & H0)]].
  - congruence.
  - by rewrite He.
  - destruct (Hmk Hout) as [w Hw]. rewrite Hw. split; [by eapply Hpromise|].
    apply for_sessions_any in H0 as (rs & partial & H0 & _).
    unfold setup_events in H0. rewrite Hout in H0. simpl in H0.
    rewrite <- app_assoc in H0. simpl in H0. eauto.
Qed.


(** *** An unknown start stage *)

Lemma rejecting_quiet start {A} (r : outcome A) (evs : list event) :
  Forall quiet evs -> rejecting start r evs.
Proof.
  intros Hq. split.
  - eapply Forall_impl; [exact Hq|]. by intros e [? _].
  - intros Hex. apply Exists_exists in Hex as (e & Hin & He).
    rewrite Forall_forall in Hq. by destruct (Hq e Hin).
Qed.

Lemma rejecting_app start {A B} (a : A) (r : outcome B) (evs1 evs2 : list event) :
  Forall quiet evs1 -> rejecting start r evs2 -> rejecting start r (evs1 ++ evs2).
Proof.
  intros Hq [Hno Hlast]. destruct (rejecting_quiet start (Return a) _ Hq) as [Hno1 Hlast1].
  split; [by apply Forall_app|].
  intros Hex. apply Exists_app in Hex as [Hex|Hex]; [|auto].
  by specialize (Hlast1 Hex).
Qed.

(** After a quiet step, a continuation that rejects. *)
Lemma rejects_after {A B} start (R : A -> Prop) (must_raise : bool)
    (m : M A) (k : A -> M B) :
  emits m (fun r evs => Forall quiet evs /\ forall a, r = Return a -> R a) ->
  (forall a, R a ->
     emits (k a) (fun r evs =>
       (must_raise = true -> exists e, r = Raise e) /\ rejecting start r evs)) ->
  emits (bind m k) (fun r evs =>
    (must_raise = true -> exists e, r = Raise e) /\ rejecting start r evs).
Proof.
  intros Hm Hk. eapply emits_bind; [exact Hm | | |].
  - intros a evs1 [_ HR]. apply Hk. by apply HR.
  - intros e evs [Hq _]. split; [eauto | by apply rejecting_quiet].
  - intros a evs1 r evs2 [Hq _] [Hr Hrej]. split; [exact Hr|].
    by apply (rejecting_app start a).
Qed.

Lemma quiet_call {A} (f : World -> outcome A * World) :
  emits (call f) (fun r evs => Forall quiet evs /\ forall a, r = Return a -> True).
Proof. apply emits_call. intros r. split; [constructor | done]. Qed.

Lemma quiet_ask {A} (f : World -> A) :
  emits (ask f) (fun r evs => Forall quiet evs /\ forall a, r = Return a -> True).
Proof. apply emits_ask. intros r. split; [constructor | done]. Qed.

Lemma quiet_assert cond msg :
  emits (py_assert cond msg)
    (fun r evs => Forall quiet evs /\ forall a, r = Return a -> True).
Proof.
  destruct cond; [apply emits_ret | apply emits_raise]; (split; [constructor | done]).
Qed.

Lemma quiet_log (e : event) :
  quiet e ->
  emits (log e) (fun r evs => Forall quiet evs /\ forall a, r = Return a -> True).
Proof.
  intros He. apply emits_log. split; [|done].
  apply Forall_cons_2; [exact He | apply Forall_nil_2].
Qed.

Lemma construct_emits k (c : Conf) :
  emits (construct k c) (fun r evs =>
    match r with
    | Return stg => stage_class stg = k /\ evs = [NewStage k c (stage_obj stg)]
    | Raise _ => evs = []
    end).
Proof.
  intros st r st1. unfold construct, bind, call, log, ret.
  destruct (stage_init k c (world st)) as [[o|e] w]; simpl; intros [= <- <-]; simpl.
  - exists [NewStage k c o]. auto.
  - exists []. by rewrite app_nil_r.
Qed.

Lemma quiet_construct k (c : Conf) :
  k <> ExecutiveSummary ->
  emits (construct k c) (fun r evs =>
    Forall quiet evs /\ forall stg, r = Return stg -> stage_class stg = k).
Proof.
  intros Hk. eapply emits_weaken; [apply construct_emits|].
  intros [stg|e] evs; simpl.
  - intros [Hc ->]. split; [|congruence].
    apply Forall_cons_2; [|apply Forall_nil_2]. split; [done|]. simpl.
    clear Hc. destruct k; intros Hlast; try exact Hlast. by apply Hk.
  - intros ->. split; [constructor | done].
Qed.

Lemma resume_from_unknown start_stage (order : list stage) st :
  truthy start_stage = true ->
  default "" start_stage ∉ name_of <$> order ->
  resume_from start_stage order st
  = (Raise (AssertionError (unknown_stage (default "" start_stage))), st).
Proof.
  intros Ht Hnot. unfold resume_from, bind, py_assert. rewrite Ht.
  by rewrite (bool_decide_eq_false_2 _ Hnot).
Qed.

Lemma run_session_rejects output_dir (n : Ncpus) start_stage s :
  truthy start_stage = true ->
  default "" start_stage ∉ class_name <$> pipeline_order ->
  emits (run_session output_dir n start_stage s)
    (fun r evs => (true = true -> exists e, r = Raise e) /\
                  rejecting (default "" start_stage) r evs).
Proof.
  intros Ht Hnot. unfold run_session. cbv zeta.
  eapply rejects_after; [apply quiet_call|]. intros c _.
  eapply rejects_after; [apply quiet_log; split; [done | intros []]|]. intros _ _.
  eapply rejects_after; [by apply quiet_construct|]. intros pre Hpre.
  eapply rejects_after; [by apply quiet_construct|]. intros free Hfree.
  eapply rejects_after; [by apply quiet_construct|]. intros post Hpost.
  eapply rejects_after; [by apply quiet_construct|]. intros vol Hvol.
  eapply rejects_after; [by apply quiet_construct|]. intros surf Hsurf.
  eapply rejects_after; [by apply quiet_construct|]. intros fnlpp Hfnlpp.
  simpl in Hpre, Hfree, Hpost, Hvol, Hsurf, Hfnlpp.
  eapply (emits_bind _ _ _
            (fun _ r evs =>
               r = Raise (AssertionError (unknown_stage (default "" start_stage)))
               /\ evs = []));
    [apply construct_emits | | |].
  - intros execsum evs1 [Hexec _]. intros st r st1. unfold bind.
    rewrite resume_from_unknown; [|exact Ht|].
    + intros [= <- <-]. exists []. by rewrite app_nil_r.
    + simpl. unfold name_of. by rewrite Hpre, Hfree, Hpost, Hvol, Hsurf, Hfnlpp, Hexec.
  - simpl. intros e evs ->. split; [eauto|]. apply rejecting_quiet. constructor.
  - simpl. intros execsum evs1 r evs2 [_ ->] [-> ->].
    split; [eauto|]. split; [|done].
    apply Forall_cons_2; [done | apply Forall_nil_2].
Qed.

Lemma for_sessions_rejects output_dir (n : Ncpus) start_stage g :
  truthy start_stage = true ->
  default "" start_stage ∉ class_name <$> pipeline_order ->
  emits (for_sessions g (run_session output_dir n start_stage))
    (fun r evs => (false = true -> exists e, r = Raise e) /\
                  rejecting (default "" start_stage) r evs).
Proof.
  intros Ht Hnot. destruct g as [|e|s rest]; simpl.
  - apply emits_ret. split; [done|]. apply rejecting_quiet. constructor.
  - apply emits_raise. split; [done|]. apply rejecting_quiet. constructor.
  - eapply rejects_after; [apply quiet_log; split; [done | intros []]|]. intros _ _.
    eapply (emits_bind _ _ _ (fun _ _ _ => True));
      [by apply run_session_rejects | | |].
    + intros a evs1 [Hr _]. destruct (Hr eq_refl) as [e He]. discriminate He.
    + simpl. intros e evs [_ Hrej]. split; [done | exact Hrej].
    + intros a evs1 r evs2 [Hr _]. destruct (Hr eq_refl) as [e He]. discriminate He.
Qed.

(** C3 (as amended): if [bids_dir] is not a directory the interface fails
    with the assertion of line 93 and has done nothing: no event, no change
    of the world, no session.  If the start stage is given, not empty, and
    not the class name of one of the seven stages, then no [run] is ever
    called; the run fails as soon as the enumeration yields a session, and
    once the seventh stage object of that session is built it fails with the
    assertion of line 121.  (An empty start stage counts as none, and
    without a session the start stage is not looked at.) *)
Theorem bad_arguments_fail_by_assertion
    bids_dir output_dir subject_list collect (n : Ncpus) start_stage st r st1 :
  interface bids_dir output_dir subject_list collect n start_stage st = (r, st1) ->
  (os_path_isdir bids_dir (world st) = false ->
   r = Raise (AssertionError (bids_dir +:+ " is not a directory!")) /\ st1 = st) /\
  (truthy start_stage = true ->
   default "" start_stage ∉ class_name <$> pipeline_order ->
   (sessions_of bids_dir output_dir subject_list collect (world st) <> [] ->
    exists e, r = Raise e) /\
   exists evs, trace st1 = trace st ++ evs /\
     Forall (fun e => is_run e = false) evs /\
     (Exists is_last_construction evs ->
      r = Raise (AssertionError (unknown_stage (default "" start_stage))))).
Proof.
  intros H0. split.
  - intros Hdir.
    apply interface_any in H0 as [(_ & -> & ->) | [(Ht & _) | (Ht & _)]];
      [done | congruence | congruence].
  - intros Ht Hnot. split.
    + intros Hsessions. destruct r as [u|e]; [|eauto].
      apply interface_Return in H0 as (_ & rs & _ & _ & _ & Hin).
      destruct (Hnot (Hin Hsessions Ht)).
    + apply interface_any in H0 as [(_ & -> & ->) | [(_ & _ & e & w & _ & -> & ->) | (_ & _ & H0)]].
      * exists []. rewrite app_nil_r. split; [done|]. split; [constructor|].
        intros Hex. by apply Exists_nil in Hex.
      * exists []. rewrite app_nil_r. split; [done|]. split; [constructor|].
        intros Hex. by apply Exists_nil in Hex.
      * destruct (for_sessions_rejects output_dir n start_stage _ Ht Hnot _ _ _ H0)
          as (evs & T & _ & Hno & Hlast).
        simpl in T. rewrite <- app_assoc in T.
        exists (setup_events bids_dir output_dir subject_list collect (world st) ++ evs).
        split; [exact T|]. split.
        -- apply Forall_app. split; [|exact Hno].
           unfold setup_events. destruct (os_path_isdir _ _); repeat constructor.
        -- intros Hex. apply Exists_app in Hex as [Hex|Hex]; [|auto].
           exfalso. unfold setup_events in Hex.
           destruct (os_path_isdir _ _); simpl in Hex;
             repeat (apply Exists_cons in Hex as [Hex|Hex]; [exact Hex|]);
             by apply Exists_nil in Hex.
Qed.

End Properties.

(** ** The command line *)


(** ** The properties at work in the small world *)

Lemma lab_makedirs_isdir p w w' :
  Lab.makedirs p w = (Return tt, w') -> Lab.isdir p w' = true.
Proof.
  unfold Lab.makedirs, Lab.isdir. destruct (_ || _); [discriminate|].
  intros [= <-]. simpl. apply bool_decide_eq_true. by left.
Qed.




(** An unknown start stage goes unnoticed when no session is yielded, and an
    empty one counts as none. *)
Lemma unknown_stage_not_always_rejected :
  (("fmri" ∉ class_name <$> pipeline_order) /\
   sessions_of "/data" "/out" None false Lab.empty_dataset = [] /\
   Lab.run_no_sessions.1 = Return tt) /\
  (("" ∉ class_name <$> pipeline_order) /\
   sessions_of "/data" "/out" None false Lab.fresh = [Lab.alice; Lab.bob] /\
   Lab.run_empty_stage.1 = Return tt /\
   stages_run (trace Lab.run_empty_stage.2) = pipeline_order ++ pipeline_order).
Proof.
  split; (split; [apply (bool_decide_unpack _); by vm_compute|]); split_and!; by vm_compute.
Qed.

Lemma bad_arguments_fail_by_assertion_witness :
  (Lab.run_no_dataset = (Lab.run_no_dataset.1, Lab.run_no_dataset.2) /\
   Lab.isdir "/nowhere" Lab.fresh = false /\
   Lab.run_no_dataset.1
   = Raise (AssertionError ("/nowhere" +:+ " is not a directory!")) /\
   Lab.run_no_dataset.2 = Lab.start Lab.fresh) /\
  (Lab.run_unknown_stage = (Lab.run_unknown_stage.1, Lab.run_unknown_stage.2) /\
   truthy (Some "fmri") = true /\
   ("fmri" ∉ class_name <$> pipeline_order) /\
   (sessions_of "/data" "/out" None false Lab.fresh <> [] ->
    exists e, Lab.run_unknown_stage.1 = Raise e) /\
   exists evs, trace Lab.run_unknown_stage.2 = [] ++ evs /\
     Forall (fun e => is_run e = false) evs /\
     (Exists is_last_construction evs ->
      Lab.run_unknown_stage.1 = Raise (AssertionError (unknown_stage "fmri")))).
Proof.
  split.
  - split; [by vm_compute|]. split; [by vm_compute|].
    apply (bad_arguments_fail_by_assertion
             "/nowhere" "/out" None false 4%Z None (Lab.start Lab.fresh));
      by vm_compute.
  - assert ("fmri" ∉ class_name <$> pipeline_order) as Hnot
      by (apply (bool_decide_unpack _); by vm_compute).
    split; [by vm_compute|]. split; [reflexivity|]. split; [exact Hnot|].
    apply (bad_arguments_fail_by_assertion
             "/data" "/out" None false 4%Z (Some "fmri") (Lab.start Lab.fresh));
      [by vm_compute | reflexivity | exact Hnot].
Defined.



Lemma out_dir_depends_on_ids_only_witness :
  Lab.run_all = (Lab.run_all.1, Lab.run_all.2) /\
  Lab.run_later = (Lab.run_later.1, Lab.run_later.2) /\
  NewConfiguration Lab.alice "/out/sub-01/ses-baseline"
    (Lab.alice, "/out/sub-01/ses-baseline")
    ∈ drop (length (trace (Lab.start Lab.fresh))) (trace Lab.run_all.2) /\
  NewConfiguration Lab.alice_again "/out/sub-01/ses-baseline"
    (Lab.alice_again, "/out/sub-01/ses-baseline")
    ∈ drop (length (trace (Lab.start Lab.later))) (trace Lab.run_later.2) /\
  subject Lab.alice = subject Lab.alice_again /\
  session Lab.alice = session Lab.alice_again /\
  others Lab.alice <> others Lab.alice_again /\
  "/out/sub-01/ses-baseline" = "/out/sub-01/ses-baseline".
Proof.
  assert (NewConfiguration Lab.alice "/out/sub-01/ses-baseline"
            (Lab.alice, "/out/sub-01/ses-baseline")
          ∈ drop (length (trace (Lab.start Lab.fresh))) (trace Lab.run_all.2)) as In1
    by (apply (list_elem_of_lookup_2 _ 3); by vm_compute).
  assert (NewConfiguration Lab.alice_again "/out/sub-01/ses-baseline"
            (Lab.alice_again, "/out/sub-01/ses-baseline")
          ∈ drop (length (trace (Lab.start Lab.later))) (trace Lab.run_later.2)) as In2
    by (apply (list_elem_of_lookup_2 _ 2); by vm_compute).
  split; [by vm_compute|]. split; [by vm_compute|].
  split; [exact In1|]. split; [exact In2|].
  split; [reflexivity|]. split; [reflexivity|]. split; [by vm_compute|].
  eapply (out_dir_depends_on_ids_only "/out"
           "/data" None false 4%Z None (Lab.start Lab.fresh)
           Lab.run_all.1 Lab.run_all.2
           "/elsewhere" None true 1%Z (Some "ExecutiveSummary") (Lab.start Lab.later)
           Lab.run_later.1 Lab.run_later.2
           Lab.alice Lab.alice_again);
    [by vm_compute | by vm_compute | exact In1 | exact In2 | reflexivity | reflexivity].
Defined.

Lemma out_dir_is_output_dir_sub_ses_witness :
  Lab.run_all = (Lab.run_all.1, Lab.run_all.2) /\
  NewConfiguration Lab.bob "/out/sub-02/ses-followup"
    (Lab.bob, "/out/sub-02/ses-followup")
    ∈ drop (length (trace (Lab.start Lab.fresh))) (trace Lab.run_all.2) /\
  "/out/sub-02/ses-followup"
  = os_path_join (os_path_join "/out" ["sub-" +:+ subject Lab.bob])
                 ["ses-" +:+ session Lab.bob] /\
  "/out/sub-02/ses-followup"
  = with_sep (with_sep "/out" +:+ "sub-" +:+ subject Lab.bob)
    +:+ "ses-" +:+ session Lab.bob.
Proof.
  assert (NewConfiguration Lab.bob "/out/sub-02/ses-followup"
            (Lab.bob, "/out/sub-02/ses-followup")
          ∈ drop (length (trace (Lab.start Lab.fresh))) (trace Lab.run_all.2)) as Hin
    by (apply (list_elem_of_lookup_2 _ 40); by vm_compute).
  split; [by vm_compute|]. split; [exact Hin|].
  eapply (out_dir_is_output_dir_sub_ses
           "/data" "/out" None false 4%Z None (Lab.start Lab.fresh)
           Lab.run_all.1 Lab.run_all.2 Lab.bob);
    [by vm_compute | exact Hin].
Defined.

(** The output directory is not made when [bids_dir] is not a directory, and
    cannot be made where a regular file is in the way. *)
Lemma missing_output_dir_not_always_made :
  (Lab.isdir "/nowhere" Lab.fresh = false /\
   Lab.isdir "/out" Lab.fresh = false /\
   Lab.run_no_dataset.1 = Raise (AssertionError "/nowhere is not a directory!") /\
   Lab.isdir "/out" (world Lab.run_no_dataset.2) = false) /\
  (Lab.isdir "/data" Lab.fresh = true /\
   Lab.isdir "/notes.txt" Lab.fresh = false /\
   Lab.run_onto_file.1 = Raise (OSError "[Errno 17] File exists: /notes.txt") /\
   Lab.isdir "/notes.txt" (world Lab.run_onto_file.2) = false).
Proof. split_and!; by vm_compute. Qed.

Lemma missing_output_dir_is_made_witness :
  (forall p w w', Lab.makedirs p w = (Return tt, w') -> Lab.isdir p w' = true) /\
  Lab.isdir "/data" Lab.fresh = true /\
  Lab.isdir "/out" Lab.fresh = false /\
  Lab.run_all = (Lab.run_all.1, Lab.run_all.2) /\
  match os_makedirs "/out" (world (Lab.start Lab.fresh)) with
  | (Return _, w) =>
      os_path_isdir "/out" w = true /\
      exists evs, trace Lab.run_all.2 = trace (Lab.start Lab.fresh) ++
        Makedirs "/out" :: ReadDataset "/data" None false :: evs
  | (Raise e, w) =>
      Lab.run_all.1 = Raise e /\
      Lab.run_all.2 = {| world := w; trace := trace (Lab.start Lab.fresh) |}
  end.
Proof.
  assert (Lab.isdir "/data" Lab.fresh = true) as Hdir by (by vm_compute).
  assert (Lab.isdir "/out" Lab.fresh = false) as Hout by (by vm_compute).
  assert (interface "/data" "/out" None false 4%Z None (Lab.start Lab.fresh)
          = (Lab.run_all.1, Lab.run_all.2)) as Hrun by (by vm_compute).
  split; [exact lab_makedirs_isdir|]. split; [exact Hdir|].
  split; [exact Hout|]. split; [by vm_compute|].
  exact (missing_output_dir_is_made
           "/data" "/out" None false 4%Z None (Lab.start Lab.fresh)
           Lab.run_all.1 Lab.run_all.2 lab_makedirs_isdir Hdir Hout Hrun).
Defined.

Lemma no_sessions_no_stage_check_witness :
  Lab.isdir "/data" Lab.empty_dataset = true /\
  (Lab.isdir "/out" Lab.empty_dataset = false ->
   exists w, Lab.makedirs "/out" Lab.empty_dataset = (Return tt, w)) /\
  Lab.read "/data" None false
    (world_after_setup "/out" Lab.empty_dataset) = GStop /\
  ("fmri" ∉ class_name <$> pipeline_order) /\
  Lab.run_no_sessions
  = (Return tt,
     {| world := world_after_setup "/out" Lab.empty_dataset;
        trace := [] ++ setup_events "/data" "/out" None false Lab.empty_dataset |}).
Proof.
  assert (Lab.isdir "/out" Lab.empty_dataset = false ->
          exists w, Lab.makedirs "/out" Lab.empty_dataset = (Return tt, w)) as Hmk
    by (intros _; eexists; by vm_compute).
  split; [by vm_compute|]. split; [exact Hmk|]. split; [by vm_compute|].
  split; [apply (bool_decide_unpack _); by vm_compute|].
  apply (no_sessions_no_stage_check
           "/data" "/out" None false 4%Z (Some "fmri") (Lab.start Lab.empty_dataset));
    [by vm_compute | exact Hmk | by vm_compute].
Defined.

(** ** Further properties of the driver *)
Section Further.

Context {World Conf Obj Ncpus : Type}.
Context `{!Collaborators World Conf Obj Ncpus}.

Local Open Scope driver_scope.
Local Abbreviation M := (@M World Conf Obj Ncpus).
Local Abbreviation stage := (@stage Obj).
Local Abbreviation event := (@event Conf Obj Ncpus).
Local Abbreviation state := (@state World Conf Obj Ncpus).
Local Abbreviation session_result := (@session_result Conf Obj).
Local Abbreviation always := (@always World Conf Obj Ncpus _).
Local Abbreviation emits := (@emits World Conf Obj Ncpus _).
Local Abbreviation built_then_run := (@built_then_run Conf Obj Ncpus).
Local Abbreviation configured := (@configured Conf Obj Ncpus).
Local Abbreviation built := (@built Conf Obj Ncpus).

Implicit Types (st : state) (stg : stage) (s : session_record) (g : generator).

(** *** The setup happens once, before the sessions *)

Lemma no_setup_in_run_session output_dir (n : Ncpus) start_stage s :
  always (fun e => is_makedirs e = false /\ is_read e = false)
    (run_session output_dir n start_stage s).
Proof.
  unfold run_session, run_stage.
  repeat first
    [ progress cbv zeta
    | by apply always_construct
    | apply always_resume_from
    | apply always_for_each; intros ?
    | apply always_bind; [|intros ?]
    | by apply always_log
    | apply always_call ].
Qed.

Lemma no_setup_in_for_sessions output_dir (n : Ncpus) start_stage g :
  always (fun e => is_makedirs e = false /\ is_read e = false)
    (for_sessions g (run_session output_dir n start_stage)).
Proof.
  apply always_for_sessions; [done|]. intros s. apply no_setup_in_run_session.
Qed.

(** The events of any run: none, or those of the setup followed by events
    that are neither a [makedirs] nor a reading of the dataset. *)
Lemma interface_setup_first bids_dir output_dir subject_list collect (n : Ncpus)
    start_stage st r st1 :
  interface bids_dir output_dir subject_list collect n start_stage st = (r, st1) ->
  trace st1 = trace st \/
  (os_path_isdir bids_dir (world st) = true /\
   exists rest,
     trace st1 = trace st ++
       setup_events bids_dir output_dir subject_list collect (world st) ++ rest /\
     Forall (fun e => is_makedirs e = false /\ is_read e = false) rest).
Proof.
  intros H0.
  apply interface_any in H0 as [(_ & _ & ->) | [(_ & _ & e & w & _ & _ & ->) | (Hdir & _ & H0)]];
    [by left | by left |].
  right. split; [exact Hdir|].
  destruct (no_setup_in_for_sessions _ _ _ _ _ _ _ H0) as (rest & T & Hrest).
  exists rest. simpl in T. rewrite <- app_assoc in T. auto.
Qed.

(** X1: [os.makedirs] is called on nothing but [output_dir], only when
    [bids_dir] is a directory and [output_dir] is not, and then it is the
    first thing the run does. *)
Theorem makedirs_only_for_missing_output_dir
    bids_dir output_dir subject_list collect (n : Ncpus) start_stage st r st1 p :
  interface bids_dir output_dir subject_list collect n start_stage st = (r, st1) ->
  Makedirs p ∈ drop (length (trace st)) (trace st1) ->
  p = output_dir /\
  os_path_isdir bids_dir (world st) = true /\
  os_path_isdir output_dir (world st) = false /\
  head (drop (length (trace st)) (trace st1)) = Some (Makedirs output_dir).
Proof.
  intros H0 Hin.
  apply interface_setup_first in H0 as [T | (Hdir & rest & T & Hrest)].
  - rewrite T, drop_all in Hin. by apply elem_of_nil in Hin.
  - rewrite T, drop_app_length in Hin |- *. unfold setup_events in *.
    rewrite Forall_forall in Hrest.
    destruct (os_path_isdir output_dir (world st)); simpl in *.
    + apply elem_of_cons in Hin as [Hin|Hin]; [discriminate Hin|].
      by destruct (Hrest _ Hin).
    + apply elem_of_cons in Hin as [Hin|Hin]; [by injection Hin as ->|].
      apply elem_of_cons in Hin as [Hin|Hin]; [discriminate Hin|].
      by destruct (Hrest _ Hin).
Qed.

Lemma filter_none {A} (P : A -> bool) (l : list A) :
  Forall (fun x => P x = false) l -> filter (fun x => P x = true) l = [].
Proof.
  induction 1 as [|x l Hx _ IH]; [done|].
  rewrite filter_cons_False; [exact IH | by rewrite Hx].
Qed.

(** X2: the dataset reader is called at most once in a run, and with the
    [bids_dir], [subject_list] and [collect] the interface received. *)
Theorem dataset_read_once_as_given
    bids_dir output_dir subject_list collect (n : Ncpus) start_stage st r st1 :
  interface bids_dir output_dir subject_list collect n start_stage st = (r, st1) ->
  let evs := drop (length (trace st)) (trace st1) in
  length (filter (fun e => is_read e = true) evs) <= 1 /\
  forall b l c, ReadDataset b l c ∈ evs ->
    b = bids_dir /\ l = subject_list /\ c = collect.
Proof.
  intros H0 evs. subst evs.
  apply interface_setup_first in H0 as [T | (Hdir & rest & T & Hrest)].
  - rewrite T, drop_all. split; [simpl; lia|].
    intros b l c Hin. by apply elem_of_nil in Hin.
  - rewrite T, drop_app_length.
    assert (filter (fun e : event => is_read e = true) rest = []) as Hnone.
    { apply filter_none. eapply Forall_impl; [exact Hrest|]. by intros e [_ ?]. }
    split.
    + rewrite filter_app, Hnone, app_nil_r. unfold setup_events.
      destruct (os_path_isdir output_dir (world st)); simpl; lia.
    + intros b l c Hin. apply elem_of_app in Hin as [Hin|Hin].
      * unfold setup_events in Hin.
        destruct (os_path_isdir output_dir (world st)); simpl in Hin;
          repeat (apply elem_of_cons in Hin as [Hin|Hin];
                  [first [by injection Hin as -> -> -> | discriminate Hin]|]);
          by apply elem_of_nil in Hin.
      * rewrite Forall_forall in Hrest. by destruct (Hrest _ Hin).
Qed.

(** *** Start stages that change nothing *)

Lemma bind_ext {A B} (m : M A) (k1 k2 : A -> M B) st :
  (forall a st', k1 a st' = k2 a st') -> bind m k1 st = bind m k2 st.
Proof. intros Hk. unfold bind. by destruct (m st) as [[a|e] st']. Qed.

Lemma for_sessions_ext (body1 body2 : session_record -> M unit) g st :
  (forall s st', body1 s st' = body2 s st') ->
  for_sessions g body1 st = for_sessions g body2 st.
Proof.
  intros Hb. revert st. induction g as [|e|s rest IH]; intros st; simpl; try done.
  apply bind_ext. intros _ sta. unfold bind. rewrite Hb.
  destruct (body2 s sta) as [[u|e] stb]; [apply IH | done].
Qed.

Lemma interface_ext bids_dir output_dir subject_list collect (n : Ncpus)
    start_stage1 start_stage2 st :
  (forall s st', run_session output_dir n start_stage1 s st'
                 = run_session output_dir n start_stage2 s st') ->
  interface bids_dir output_dir subject_list collect n start_stage1 st
  = interface bids_dir output_dir subject_list collect n start_stage2 st.
Proof.
  intros Hb. unfold interface.
  do 6 (apply bind_ext; intros ? ?).
  by apply for_sessions_ext.
Qed.

(** X3: an empty start stage is no start stage: the interface does with
    [start_stage = ''] exactly what it does with [start_stage = None]. *)
Theorem empty_start_stage_is_no_start_stage
    bids_dir output_dir subject_list collect (n : Ncpus) start_stage st :
  truthy start_stage = false ->
  interface bids_dir output_dir subject_list collect n start_stage st
  = interface bids_dir output_dir subject_list collect n None st.
Proof.
  intros Hf. apply interface_ext. intros s st'.
  destruct start_stage as [[|ch rest]|]; [reflexivity | discriminate Hf | reflexivity].
Qed.

Lemma run_session_from_first output_dir (n : Ncpus) s st :
  run_session output_dir n (Some (class_name PreFreeSurfer)) s st
  = run_session output_dir n None s st.
Proof.
  unfold run_session, construct, bind, call, log, ret. simpl.
  destruct (HCPConfiguration _ _ _) as [[c|e] w]; [|done]. simpl.
  repeat (destruct (stage_init _ _ _) as [[?|?] ?]; [|done]; simpl).
  reflexivity.
Qed.

(** X4: resuming from the first stage is not resuming: with
    [start_stage = 'PreFreeSurfer'] the interface does exactly what it does
    with no start stage. *)
Theorem start_at_first_stage_is_no_start_stage
    bids_dir output_dir subject_list collect (n : Ncpus) st :
  interface bids_dir output_dir subject_list collect n (Some "PreFreeSurfer") st
  = interface bids_dir output_dir subject_list collect n None st.
Proof. apply interface_ext. intros s st'. apply run_session_from_first. Qed.

(** *** The choice of the stages to run *)

Lemma list_index_elem_of (x : string) (names : list string) :
  x ∈ names -> is_Some (list_index x names).
Proof.
  intros Hin. unfold list_index.
  destruct (list_find_elem_of (fun y => y = x) names x Hin eq_refl) as [[i y] Hfind].
  rewrite Hfind. by eexists.
Qed.

(** X5: lines 119-124 change nothing outside and end in one of two ways:
    with the stages to run, or, when a start stage is given that is not among
    the names, with the assertion of line 121.  [names.index] never fails:
    it is only reached with a name that is in the list. *)
Theorem resume_from_returns_or_asserts start_stage (order : list stage) st r st1 :
  resume_from start_stage order st = (r, st1) ->
  st1 = st /\
  ((r = Return (resumed start_stage order) /\
    (truthy start_stage = true -> default "" start_stage ∈ name_of <$> order)) \/
   (truthy start_stage = true /\
    (default "" start_stage ∉ name_of <$> order) /\
    r = Raise (AssertionError (unknown_stage (default "" start_stage))))).
Proof.
  unfold resume_from, resumed. destruct (truthy start_stage) eqn:Ht.
  - unfold bind.
    destruct (decide (default "" start_stage ∈ name_of <$> order)) as [Hin|Hnot].
    + rewrite (bool_decide_eq_true_2 _ Hin). simpl.
      destruct (list_index_elem_of _ _ Hin) as [i Hi]. rewrite Hi.
      intros [= <- <-]. split; [done|]. left. auto.
    + rewrite (bool_decide_eq_false_2 _ Hnot). simpl.
      intros [= <- <-]. split; [done|]. right. auto.
  - intros [= <- <-]. split; [done|]. left. split; [done | discriminate].
Qed.

(** *** What is built for a session *)

Lemma configured_new_stages (c : Conf) (ks : list StageClass) (os : list Obj) :
  configured (zip_with (fun k o => NewStage k c o : event) ks os) = [].
Proof. revert os. induction ks as [|k ks IH]; intros [|o os]; simpl; auto. Qed.

Lemma built_new_stages (c : Conf) (ks : list StageClass) (os : list Obj) :
  length os = length ks ->
  built (zip_with (fun k o => NewStage k c o : event) ks os)
  = (fun k => (k, c)) <$> ks.
Proof.
  revert os. induction ks as [|k ks IH]; intros [|o os]; simpl; try done.
  intros [= Hlen]. unfold built in *. simpl. f_equal. by apply IH.
Qed.

Lemma nothing_built_by_runs (n : Ncpus) (l : list stage) (texts : list string) :
  configured (concat (zip_with (stage_events n) l texts)) = [] /\
  built (concat (zip_with (stage_events n) l texts)) = [].
Proof.
  revert texts. induction l as [|stg l IH]; intros [|t texts]; simpl; [done .. |].
  apply IH.
Qed.

(** X6: resuming skips calls of [run], not constructions.  In a run that
    returns, whatever the start stage, one configuration was built for every
    session, with the output path of the session, and all seven stage objects
    were built from it, in the fixed order. *)
Theorem every_session_fully_built
    bids_dir output_dir subject_list collect (n : Ncpus) start_stage st u st1 :
  interface bids_dir output_dir subject_list collect n start_stage st
    = (Return u, st1) ->
  let sessions := sessions_of bids_dir output_dir subject_list collect (world st) in
  exists rs : list session_result,
    length rs = length sessions /\
    trace st1 = trace st ++
      setup_events bids_dir output_dir subject_list collect (world st) ++
      loop_events output_dir n start_stage sessions rs /\
    Forall2 (fun s r =>
               configured (session_block output_dir n start_stage s r)
               = [(s, session_out_dir output_dir s, conf_of r)] /\
               built (session_block output_dir n start_stage s r)
               = (fun k => (k, conf_of r)) <$> pipeline_order)
            sessions rs.
Proof.
  intros H0 sessions.
  apply interface_Return in H0 as (_ & rs & Hlen & Hrs & H0 & _).
  fold sessions in Hlen, H0. exists rs.
  split; [exact Hlen|]. split; [exact H0|].
  apply Forall2_of_Forall; [exact Hlen|].
  eapply Forall_impl; [exact Hrs|]. intros r [Ho _] s.
  pose proof (configured_new_stages (conf_of r) pipeline_order (objs_of r)) as C1.
  pose proof (built_new_stages (conf_of r) pipeline_order (objs_of r) Ho) as B1.
  destruct (nothing_built_by_runs n (resumed start_stage (stages_of r)) (texts_of r))
    as [C2 B2].
  unfold session_block, session_events, configured, built in *.
  cbn [omap list_omap]. rewrite !omap_app. by rewrite C1, C2, B1, B2.
Qed.

(** *** Output paths *)

Lemma string_app_cons c (a b : string) : String c a +:+ b = String c (a +:+ b).
Proof. reflexivity. Qed.

Lemma string_app_nil_r (a : string) : a +:+ "" = a.
Proof. induction a as [|c a IH]; [done|]. by rewrite string_app_cons, IH. Qed.

Lemma string_app_inv_head (a x y : string) : a +:+ x = a +:+ y -> x = y.
Proof.
  induction a as [|c a IH]; [done|]. rewrite !string_app_cons. intros [= E]. auto.
Qed.

Lemma string_app_nonempty (a b : string) : b <> "" -> a +:+ b <> "".
Proof. destruct a; [done|]. by rewrite string_app_cons. Qed.

Lemma with_sep_extends (path : string) : exists t, with_sep path = path +:+ t.
Proof.
  unfold with_sep. destruct (_ || _); [exists "" | by exists "/"].
  by rewrite string_app_nil_r.
Qed.

Lemma session_out_dir_relative output_dir s :
  session_out_dir output_dir s
  = with_sep (with_sep output_dir +:+ "sub-" +:+ subject s)
    +:+ "ses-" +:+ session s.
Proof.
  unfold session_out_dir, os_path_join, percent_s. simpl.
  by rewrite !join_step_relative.
Qed.

(** X7: the output path of a session lies under [output_dir], whatever the
    ids are: no id, not even one that starts with a separator, makes
    [os.path.join] drop [output_dir], because each component starts with the
    literal ['sub-'] or ['ses-']. *)
Theorem out_dir_extends_output_dir
    bids_dir output_dir subject_list collect (n : Ncpus) start_stage st r st1
    s p (c : Conf) :
  interface bids_dir output_dir subject_list collect n start_stage st = (r, st1) ->
  NewConfiguration s p c ∈ drop (length (trace st)) (trace st1) ->
  exists rest, p = output_dir +:+ rest.
Proof.
  intros H0 Hin.
  destruct (always_configured_interface _ _ _ _ _ _ _ _ _ H0) as (evs & T & A).
  rewrite T, drop_app_length in Hin. rewrite Forall_forall in A.
  rewrite (A _ Hin), session_out_dir_relative.
  destruct (with_sep_extends output_dir) as [t1 ->].
  destruct (with_sep_extends ((output_dir +:+ t1) +:+ "sub-" +:+ subject s)) as [t2 ->].
  eexists. rewrite !string_app_assoc. reflexivity.
Qed.

Lemma endswith_sep_app (a b : string) :
  b <> "" -> endswith_sep (a +:+ b) = endswith_sep b.
Proof.
  intros Hb. induction a as [|c a IH]; [done|].
  rewrite string_app_cons. pose proof (string_app_nonempty a b Hb) as Hne.
  destruct (a +:+ b) as [|c' rest] eqn:E; [done|]. exact IH.
Qed.

Lemma endswith_sep_has_sep (x : string) : endswith_sep x = true -> has_sep x = true.
Proof.
  induction x as [|c x IH]; [done|]. simpl. destruct x as [|c' x].
  - intros ->. reflexivity.
  - intros Hx. rewrite (IH Hx). apply orb_true_r.
Qed.

Lemma with_sep_component (base x : string) :
  has_sep x = false ->
  with_sep (base +:+ "sub-" +:+ x) = (base +:+ "sub-" +:+ x) +:+ "/".
Proof.
  intros Hx. unfold with_sep.
  assert ("sub-" +:+ x <> "") as Hne by done.
  rewrite (bool_decide_eq_false_2 _ (string_app_nonempty base _ Hne)).
  rewrite (endswith_sep_app base _ Hne).
  destruct x as [|c x]; [reflexivity|].
  assert (String c x <> "") as Hne' by done.
  rewrite (endswith_sep_app "sub-" _ Hne').
  destruct (endswith_sep (String c x)) eqn:E; [|reflexivity].
  apply endswith_sep_has_sep in E. congruence.
Qed.

Lemma split_at_first_sep (x1 x2 y1 y2 : string) :
  has_sep x1 = false -> has_sep x2 = false ->
  x1 +:+ "/" +:+ y1 = x2 +:+ "/" +:+ y2 -> x1 = x2 /\ y1 = y2.
Proof.
  revert x2. induction x1 as [|c1 x1 IH]; intros [|c2 x2] H1 H2.
  - intros E. apply (string_app_inv_head "/") in E. auto.
  - rewrite string_app_cons. intros [= <- _]. discriminate H2.
  - rewrite string_app_cons. intros [= -> _]. discriminate H1.
  - rewrite !string_app_cons. intros [= <- E].
    simpl in H1, H2. apply orb_false_iff in H1 as [_ H1]. apply orb_false_iff in H2 as [_ H2].
    destruct (IH x2 H1 H2 E) as [-> ->]. auto.
Qed.

(** X8: sessions with different ids never share an output path, provided no
    subject id holds a separator: if two sessions are given the same path
    under one [output_dir], they have the same subject id and the same
    session id. *)
Theorem same_out_dir_same_ids output_dir s1 s2 :
  has_sep (subject s1) = false -> has_sep (subject s2) = false ->
  session_out_dir output_dir s1 = session_out_dir output_dir s2 ->
  subject s1 = subject s2 /\ session s1 = session s2.
Proof.
  intros H1 H2. rewrite !session_out_dir_relative.
  rewrite (with_sep_component _ _ H1), (with_sep_component _ _ H2).
  rewrite !string_app_assoc. intros E.
  apply string_app_inv_head in E. apply (string_app_inv_head "sub-") in E.
  apply (split_at_first_sep _ _ _ _ H1 H2) in E as [E1 E2].
  split; [exact E1|]. by apply (string_app_inv_head "ses-") in E2.
Qed.

(** *** The end of the enumeration *)

(** X9: an exception of the dataset reader is not caught.  If [bids_dir] is a
    directory, the output directory exists or is made, and the enumeration
    raises before it yields a session, the interface raises that exception,
    having done the setup and nothing else. *)
Theorem reader_exception_propagates
    bids_dir output_dir subject_list collect (n : Ncpus) start_stage st e :
  os_path_isdir bids_dir (world st) = true ->
  (os_path_isdir output_dir (world st) = false ->
   exists w, os_makedirs output_dir (world st) = (Return tt, w)) ->
  read_bids_dataset bids_dir subject_list collect
    (world_after_setup output_dir (world st)) = GRaise e ->
  interface bids_dir output_dir subject_list collect n start_stage st
  = (Raise e,
     {| world := world_after_setup output_dir (world st);
        trace := trace st ++
          setup_events bids_dir output_dir subject_list collect (world st) |}).
Proof.
  intros Hdir Hmk Hgen.
  destruct (interface bids_dir output_dir subject_list collect n start_stage st)
    as [r st1] eqn:H0.
  apply interface_any in H0 as [(Hf & _) | [(_ & Hout & e' & w & He & _) | (_ & _ & H0)]].
  - congruence.
  - destruct (Hmk Hout) as [w' Hw']. congruence.
  - rewrite Hgen in H0. simpl in H0. by injection H0 as <- <-.
Qed.

Lemma for_sessions_Return_ending (body : session_record -> M unit) g st u st1 :
  for_sessions g body st = (Return u, st1) -> ending g = None.
Proof.
  revert st. induction g as [|e|s rest IH]; intros st; simpl; [done | discriminate |].
  unfold bind. destruct (log (Yield s) st) as [[u'|e] sta]; [|discriminate].
  destruct (body s sta) as [[u''|e] stb]; [apply IH | discriminate].
Qed.

(** X10: the interface returns only when the enumeration came to its end
    without raising: if the enumeration ends with an exception, after any
    number of sessions, the interface does not return. *)
Theorem return_needs_complete_enumeration
    bids_dir output_dir subject_list collect (n : Ncpus) start_stage st u st1 :
  interface bids_dir output_dir subject_list collect n start_stage st
    = (Return u, st1) ->
  ending (read_bids_dataset bids_dir subject_list collect
            (world_after_setup output_dir (world st))) = None.
Proof.
  intros H0.
  apply interface_any in H0 as [(_ & Hr & _) | [(_ & _ & e & w & _ & Hr & _) | (_ & _ & H0)]];
    [discriminate Hr | discriminate Hr |].
  by apply for_sessions_Return_ending in H0.
Qed.

(** *** Building comes before running *)

Lemma built_then_run_after {A B} (m : M A) (k : A -> M B) :
  always (fun e => is_construction e = true) m ->
  (forall a, emits (k a) (fun _ evs => built_then_run evs)) ->
  emits (bind m k) (fun _ evs => built_then_run evs).
Proof.
  intros Hm Hk. eapply emits_bind; [exact Hm | intros a _ _; exact (Hk a) | |].
  - intros e evs Hall. exists evs, []. rewrite app_nil_r. split_and!; [done | done | constructor].
  - intros a evs1 r evs2 Hall (cons & runs & -> & Hc & Hr).
    exists (evs1 ++ cons), runs. rewrite app_assoc.
    split_and!; [done | by apply Forall_app | done].
Qed.

Lemma built_then_run_only_runs {A} (m : M A) :
  always (fun e => is_construction e = false) m ->
  emits m (fun _ evs => built_then_run evs).
Proof.
  intros Hm. eapply emits_weaken; [exact Hm|]. intros r evs Hall.
  exists [], evs. split_and!; [done | constructor | done].
Qed.

(** X11: for each session the driver builds before it runs: whatever the
    processing of a session does, first come the constructions (of the
    configuration and of stage objects) and then events that are not
    constructions.  So when one of the constructors raises, nothing has been
    printed or run for that session. *)
Theorem session_built_before_run output_dir (n : Ncpus) start_stage s st r st1 :
  run_session output_dir n start_stage s st = (r, st1) ->
  exists cons runs,
    trace st1 = trace st ++ cons ++ runs /\
    Forall (fun e => is_construction e = true) cons /\
    Forall (fun e => is_construction e = false) runs.
Proof.
  intros H0.
  assert (emits (run_session output_dir n start_stage s)
            (fun _ evs => built_then_run evs)) as Hshape.
  { unfold run_session. cbv zeta.
    apply built_then_run_after; [apply always_call|]. intros c.
    apply built_then_run_after; [by apply always_log|]. intros _.
    do 7 (apply built_then_run_after; [by apply always_construct|]; intros ?).
    apply built_then_run_only_runs.
    apply always_bind; [apply always_resume_from|]. intros order.
    apply always_for_each. intros stg. unfold run_stage.
    repeat first
      [ apply always_bind; [|intros ?]
      | by apply always_log
      | apply always_call ]. }
  destruct (Hshape _ _ _ H0) as (evs & T & cons & runs & -> & Hc & Hr).
  exists cons, runs. auto.
Qed.

End Further.

(** ** The further properties at work *)

Lemma makedirs_only_for_missing_output_dir_witness :
  Lab.run_all = (Lab.run_all.1, Lab.run_all.2) /\
  Makedirs "/out" ∈ drop (length (trace (Lab.start Lab.fresh))) (trace Lab.run_all.2) /\
  "/out" = "/out" /\
  os_path_isdir "/data" (world (Lab.start Lab.fresh)) = true /\
  os_path_isdir "/out" (world (Lab.start Lab.fresh)) = false /\
  head (drop (length (trace (Lab.start Lab.fresh))) (trace Lab.run_all.2))
  = Some (Makedirs "/out").
Proof.
  assert (Makedirs "/out"
          ∈ drop (length (trace (Lab.start Lab.fresh))) (trace Lab.run_all.2)) as Hin
    by (apply (list_elem_of_lookup_2 _ 0); by vm_compute).
  assert (interface "/data" "/out" None false 4%Z None (Lab.start Lab.fresh)
          = (Lab.run_all.1, Lab.run_all.2)) as Hrun by (by vm_compute).
  split; [by vm_compute|]. split; [exact Hin|].
  exact (makedirs_only_for_missing_output_dir
           "/data" "/out" None false 4%Z None (Lab.start Lab.fresh)
           Lab.run_all.1 Lab.run_all.2 "/out" Hrun Hin).
Defined.

Lemma dataset_read_once_as_given_witness :
  Lab.run_all = (Lab.run_all.1, Lab.run_all.2) /\
  length (filter (fun e => is_read e = true)
            (drop (length (trace (Lab.start Lab.fresh))) (trace Lab.run_all.2))) <= 1 /\
  forall b l c,
    ReadDataset b l c
    ∈ drop (length (trace (Lab.start Lab.fresh))) (trace Lab.run_all.2) ->
    b = "/data" /\ l = None /\ c = false.
Proof.
  split; [by vm_compute|].
  apply (dataset_read_once_as_given
           "/data" "/out" None false 4%Z None (Lab.start Lab.fresh) Lab.run_all.1).
  by vm_compute.
Defined.

Lemma empty_start_stage_is_no_start_stage_witness :
  truthy (Some "") = false /\
  interface "/data" "/out" None false 4%Z (Some "") (Lab.start Lab.fresh)
  = interface "/data" "/out" None false 4%Z None (Lab.start Lab.fresh).
Proof.
  split; [reflexivity|].
  apply (empty_start_stage_is_no_start_stage
           "/data" "/out" None false 4%Z (Some "") (Lab.start Lab.fresh)).
  reflexivity.
Defined.

Lemma resume_from_returns_or_asserts_witness :
  Bench.resume_lowercase = (Bench.resume_lowercase.1, Bench.resume_lowercase.2) /\
  Bench.resume_lowercase.2 = Lab.start Lab.fresh /\
  ((Bench.resume_lowercase.1
    = Return (resumed (Some "freesurfer") Bench.two_stages) /\
    (truthy (Some "freesurfer") = true ->
     default "" (Some "freesurfer") ∈ name_of <$> Bench.two_stages)) \/
   (truthy (Some "freesurfer") = true /\
    (default "" (Some "freesurfer") ∉ name_of <$> Bench.two_stages) /\
    Bench.resume_lowercase.1
    = Raise (AssertionError (unknown_stage (default "" (Some "freesurfer")))))).
Proof.
  assert (resume_from (Some "freesurfer") Bench.two_stages (Lab.start Lab.fresh)
          = (Bench.resume_lowercase.1, Bench.resume_lowercase.2)) as Hrun
    by (by vm_compute).
  split; [by vm_compute|].
  exact (resume_from_returns_or_asserts (Some "freesurfer") Bench.two_stages
           (Lab.start Lab.fresh) Bench.resume_lowercase.1 Bench.resume_lowercase.2
           Hrun).
Defined.

Lemma every_session_fully_built_witness :
  Lab.run_from_surface = (Return tt, Lab.run_from_surface.2) /\
  exists rs,
    length rs = length (sessions_of "/data" "/out" (Some ["02"]) false Lab.fresh) /\
    trace Lab.run_from_surface.2 = [] ++
      setup_events "/data" "/out" (Some ["02"]) false Lab.fresh ++
      loop_events "/out" 4%Z (Some "FMRISurface")
        (sessions_of "/data" "/out" (Some ["02"]) false Lab.fresh) rs /\
    Forall2 (fun s r =>
               configured (session_block "/out" 4%Z (Some "FMRISurface") s r)
               = [(s, session_out_dir "/out" s, conf_of r)] /\
               built (session_block "/out" 4%Z (Some "FMRISurface") s r)
               = (fun k => (k, conf_of r)) <$> pipeline_order)
            (sessions_of "/data" "/out" (Some ["02"]) false Lab.fresh) rs.
Proof.
  split; [by vm_compute|].
  apply (every_session_fully_built
           "/data" "/out" (Some ["02"]) false 4%Z (Some "FMRISurface")
           (Lab.start Lab.fresh) tt).
  by vm_compute.
Defined.

Lemma out_dir_extends_output_dir_witness :
  Lab.run_all = (Lab.run_all.1, Lab.run_all.2) /\
  NewConfiguration Lab.bob "/out/sub-02/ses-followup"
    (Lab.bob, "/out/sub-02/ses-followup")
    ∈ drop (length (trace (Lab.start Lab.fresh))) (trace Lab.run_all.2) /\
  exists rest, "/out/sub-02/ses-followup" = "/out" +:+ rest.
Proof.
  assert (NewConfiguration Lab.bob "/out/sub-02/ses-followup"
            (Lab.bob, "/out/sub-02/ses-followup")
          ∈ drop (length (trace (Lab.start Lab.fresh))) (trace Lab.run_all.2)) as Hin
    by (apply (list_elem_of_lookup_2 _ 40); by vm_compute).
  split; [by vm_compute|]. split; [exact Hin|].
  eapply (out_dir_extends_output_dir
            "/data" "/out" None false 4%Z None (Lab.start Lab.fresh)
            Lab.run_all.1 Lab.run_all.2 Lab.bob);
    [by vm_compute | exact Hin].
Defined.

Lemma same_out_dir_same_ids_witness :
  has_sep (subject Lab.alice) = false /\
  has_sep (subject Lab.alice_again) = false /\
  session_out_dir "/out" Lab.alice = session_out_dir "/out" Lab.alice_again /\
  subject Lab.alice = subject Lab.alice_again /\
  session Lab.alice = session Lab.alice_again.
Proof.
  split; [reflexivity|]. split; [reflexivity|]. split; [reflexivity|].
  apply (same_out_dir_same_ids "/out" Lab.alice Lab.alice_again); reflexivity.
Defined.

Lemma reader_exception_propagates_witness :
  os_path_isdir "/data" (world Outage.start) = true /\
  (os_path_isdir "/out" (world Outage.start) = false ->
   exists w, os_makedirs "/out" (world Outage.start) = (Return tt, w)) /\
  read_bids_dataset "/data" None false
    (world_after_setup "/out" (world Outage.start)) = GRaise Outage.no_subjects /\
  interface "/data" "/out" None false 1%Z None Outage.start
  = (Raise Outage.no_subjects,
     {| world := world_after_setup "/out" (world Outage.start);
        trace := trace Outage.start ++
          setup_events "/data" "/out" None false (world Outage.start) |}).
Proof.
  assert (os_path_isdir "/out" (world Outage.start) = false ->
          exists w, os_makedirs "/out" (world Outage.start) = (Return tt, w)) as Hmk
    by (intros _; by exists tt).
  split; [reflexivity|]. split; [exact Hmk|]. split; [reflexivity|].
  apply (reader_exception_propagates
           "/data" "/out" None false 1%Z None Outage.start Outage.no_subjects);
    [reflexivity | exact Hmk | reflexivity].
Defined.

Lemma return_needs_complete_enumeration_witness :
  Lab.run_all = (Return tt, Lab.run_all.2) /\
  ending (read_bids_dataset "/data" None false
            (world_after_setup "/out" (world (Lab.start Lab.fresh)))) = None.
Proof.
  split; [by vm_compute|].
  apply (return_needs_complete_enumeration
           "/data" "/out" None false 4%Z None (Lab.start Lab.fresh) tt Lab.run_all.2).
  by vm_compute.
Defined.

Lemma session_built_before_run_witness :
  Bench.session_faulty = (Bench.session_faulty.1, Bench.session_faulty.2) /\
  exists cons runs,
    trace Bench.session_faulty.2 = trace (Lab.start Lab.faulty) ++ cons ++ runs /\
    Forall (fun e => is_construction e = true) cons /\
    Forall (fun e => is_construction e = false) runs.
Proof.
  split; [by vm_compute|].
  apply (session_built_before_run "/out" 4%Z None Lab.alice (Lab.start Lab.faulty)
           Bench.session_faulty.1).
  by vm_compute.
Defined.
